(** * lib/server.ts: the server-side-rendering bootstrap

    A shallow embedding of [server(config)] from [src/lib/server.ts]:
    the JavaScript values the handler inspects, the renderer factory,
    the static routes, the micro-cache key, the request renderer with its
    default error handler, and the event loop that connects incoming
    requests with the production / development renderer handle. *)

From Stdlib Require Import ZArith String List Bool Lia.
From stdpp Require Import base option gmap strings list fin_maps pretty.

Open Scope string_scope.
Open Scope list_scope.
Open Scope Z_scope.

(** ** JavaScript values *)

(** [req] as far as the file reads it: [req.url] and [req.originalUrl]. *)
Record Request := mkRequest {
  url : string;
  originalUrl : string
}.

(** Function values are kept in defunctionalised form.  The only closure
    the file itself creates and then treats as data is the arrow function
    [() => config.context(req)] of line 112; every other function value
    comes from outside and is named. *)
Inductive closure :=
| ContextThunk (req : Request)
| ForeignFun (name : string).

(** Numbers are restricted to the integers, which is all the file compares
    against ([err.code === 404]); objects are maps from property names to
    values and hold their own enumerable properties. *)
#[warnings="-register-all"] Inductive value :=
| VUndefined
| VNull
| VBool (b : bool)
| VNum (n : Z)
| VStr (s : string)
| VObj (props : gmap string value)
| VLru (max maxAge : Z)
| VFun (c : closure).

(** ToBoolean. *)
Definition truthy (v : value) : bool :=
  match v with
  | VUndefined | VNull => false
  | VBool b => b
  | VNum n => negb (n =? 0)
  | VStr s => negb (String.eqb s "")
  | VObj _ | VLru _ _ | VFun _ => true
  end.

(** [v.k] for a property [k] that no prototype provides: primitives and
    freshly created functions answer [undefined].  The file reads
    properties of truthy values only, so the exception of [null.k] and
    [undefined.k] never arises. *)
Definition get (v : value) (k : string) : value :=
  match v with
  | VObj props => default VUndefined (props !! k)
  | _ => VUndefined
  end.

(** [v === n] for a number literal [n]. *)
Definition strict_eq_num (v : value) (n : Z) : bool :=
  match v with
  | VNum m => m =? n
  | _ => false
  end.

(** The own enumerable string-keyed properties of [ToObject(v)], for the
    sources [Object.assign] is given in this file.  An arrow function owns
    only [length] and [name], neither enumerable. *)
Definition own_enumerable (v : value) : gmap string value :=
  match v with
  | VObj props => props
  | _ => ∅
  end.

(** [Object.assign(target, source)]: every own enumerable property of the
    source is written onto the target; [null] and [undefined] sources are
    skipped.  [∪] on maps is left-biased, so the source goes first. *)
Definition Object_assign (target : gmap string value) (source : value)
  : gmap string value :=
  own_enumerable source ∪ target.

(** [Promise.resolve(v).then(k)]: [k] receives [v] itself unless [v] is a
    thenable; no value of this model is one. *)
Definition Promise_resolve (v : value) : value := v.

(** [a && b] on values: the left operand when it is falsy, else the
    right one. *)
Definition js_and (a b : value) : value := if truthy a then b else a.

(** ** Configuration and environment *)

(** The resolved configuration ([setConfig] lives in [./config]); the
    fields are the ones [server] reads.  [handleError] is [None] when no
    custom handler is configured, else the name of the hook. *)
Module Config.
Record t := mk {
  projectPath : string;
  template : string;
  faviconURL : value;
  port : value;
  status404 : value;
  status500 : value;
  context : Request -> value;
  handleError : option string
}.
End Config.

(** [process.env]: an unset variable reads as [undefined]. *)
Record ProcessEnv := mkEnv {
  NODE_ENV : option string;
  MICRO_CACHE : option string;
  PORT : option string
}.

(** [process.env.X === lit] *)
Definition env_is (x : option string) (lit : string) : bool :=
  match x with
  | Some s => String.eqb s lit
  | None => false
  end.

Definition isProd (env : ProcessEnv) : bool :=
  env_is (NODE_ENV env) "production".

Definition useMicroCache (env : ProcessEnv) : bool :=
  negb (env_is (MICRO_CACHE env) "false").

(** ** The renderer factory *)

(** What [createBundleRenderer(bundle, options)] was called with; the
    renderer itself is opaque to this file. *)
Record Renderer := mkRenderer {
  r_bundle : value;
  r_options : gmap string value
}.

Definition createBundleRenderer (bundle : value) (options : gmap string value)
  : Renderer := mkRenderer bundle options.

(** [LRU({max, maxAge})] *)
Definition LRU (max maxAge : Z) : value := VLru max maxAge.

Section Server.

(** Node's [path.resolve], applied to two segments. *)
Variable path_resolve : string -> string -> string.
(** [fs.readFileSync(p, 'utf-8')] and [require(p)] of a JSON file; [None]
    when the call throws. *)
Variable readFileSync : string -> option string.
Variable require : string -> option value.

Variable config : Config.t.
Variable env : ProcessEnv.

Definition resolve (file : string) : string :=
  path_resolve (Config.projectPath config) file.

Definition createRenderer (bundle : value) (options : gmap string value)
  : Renderer :=
  createBundleRenderer bundle
    (Object_assign options
       (VObj {[ "cache" := LRU 1000 (1000 * 60 * 15);
                "basedir" := VStr (resolve "./dist");
                "runInNewContext" := VBool false ]})).

(** ** Static assets *)

(** [express.static(root, { maxAge })] *)
Record Static := mkStatic {
  root : string;
  maxAge : Z
}.

Definition serve (path : string) (cache : bool) : Static :=
  mkStatic (resolve path)
           (if cache && isProd env then 1000 * 60 * 60 * 24 * 30 else 0).

(** The four [app.use(mount, serve(...))] lines, in order. *)
Definition static_routes : list (string * Static) :=
  [ ("/dist", serve "./dist" true);
    ("/public", serve "./public" true);
    ("/manifest.json", serve "./manifest.json" true);
    ("/service-worker.js", serve "./dist/service-worker.js" false) ].

(** ** Micro-cache *)

(** [req => useMicroCache && req.originalUrl] *)
Definition cacheKey (req : Request) : value :=
  js_and (VBool (useMicroCache env)) (VStr (originalUrl req)).

(** What the middleware returned by [microcache.cacheSeconds(ttl, key)]
    does with a request, by the contract of the [route-cache] package: a
    falsy key hands the request straight to the next handler, any other
    key selects the cache entry, which lives for [ttl] seconds. *)
Inductive cache_action :=
| Bypass
| Cached (ttl_ms : Z) (key : value).

Definition cacheSeconds (secondsTTL : Z) (key : Request -> value)
  (req : Request) : cache_action :=
  let k := key req in
  if truthy k then Cached (secondsTTL * 1000) k else Bypass.

Definition microcache (req : Request) : cache_action :=
  cacheSeconds 1 cacheKey req.

(** The stored response a request is answered with, if any: entries are
    filed under the string key and served until they expire. *)
Definition cached_response (store : gmap string (Z * value)) (now : Z)
  (a : cache_action) : option value :=
  match a with
  | Cached _ (VStr k) =>
      match store !! k with
      | Some (expires, body) => if now <? expires then Some body else None
      | None => None
      end
  | _ => None
  end.

(** ** The request renderer *)

(** What a request handler does to the outside world: calls on [res], on
    [console], on the renderer and on the configured hook.  [TypeError]
    stands for the exception of calling a method of [undefined]. *)
Inductive effect :=
| SetHeader (name val : string)
| RenderToString (r : Renderer) (ctx : gmap string value)
| Redirect (target : value)
| Status (code : Z)
| Send (body : value)
| ConsoleError (msg : value)
| ConsoleLog (msg : string)
| CallHandleError (hook : string) (err : value)
| TypeError.

(** The local [handleError] of [render]. *)
Definition handleError (req : Request) (err : value) : list effect :=
  if truthy (get err "url") then
    [Redirect (get err "url")]
  else if strict_eq_num (get err "code") 404 then
    [Status 404; Send (Config.status404 config)]
  else
    [Status 500; Send (Config.status500 config);
     ConsoleError (VStr ("error during render : " ++ url req));
     ConsoleError (get err "stack")].

(** The value the promise of line 112 is resolved with: the arrow
    function, not the result of calling it. *)
Definition context_promise (req : Request) : value :=
  Promise_resolve (VFun (ContextThunk req)).

(** What calling a closure would return. *)
Definition call (c : closure) : option value :=
  match c with
  | ContextThunk req => Some (Config.context config req)
  | ForeignFun _ => None
  end.

(** [Object.assign({ title: 'App', url: req.url }, context)] *)
Definition merge_context (req : Request) (context : value)
  : gmap string value :=
  Object_assign {[ "title" := VStr "App"; "url" := VStr (url req) ]} context.

(** The context [renderer.renderToString] is called with. *)
Definition render_context (req : Request) : gmap string value :=
  merge_context req (context_promise req).

(** The callback handed to [renderer.renderToString]; [s] and [now] are
    the two readings of [Date.now()]. *)
Definition renderToString_callback (req : Request) (s now : Z)
  (err html : value) : list effect :=
  if truthy err then
    match Config.handleError config with
    | Some hook => [CallHandleError hook err]
    | None => handleError req err
    end
  else
    Send html ::
    (if negb (isProd env)
     then [ConsoleLog ("whole request: " ++ pretty (now - s) ++ "ms")]
     else []).

(** [render(req, res)] for one request, from the first statement to the
    end of the renderer's callback: [handle] is the value of the variable
    [renderer] when the context promise is fulfilled, [(err, html)] what
    the renderer calls back with. *)
Definition render (handle : option Renderer) (req : Request) (s now : Z)
  (err html : value) : list effect :=
  SetHeader "Content-Type" "text/html" ::
  match handle with
  | Some r =>
      RenderToString r (render_context req) ::
      renderToString_callback req s now err html
  | None => [TypeError]
  end.

(** The response object of the HTTP framework, as far as the calls above
    change it: a fresh response has status 200 and [res.redirect] answers
    302 with the target as location. *)
Record Response := mkResponse {
  status : Z;
  headers : gmap string string;
  location : option value;
  body : option value
}.

Definition fresh_response : Response := mkResponse 200 ∅ None None.

Definition apply_effect (res : Response) (e : effect) : Response :=
  match e with
  | SetHeader k v =>
      mkResponse (status res) (<[k := v]> (headers res)) (location res) (body res)
  | Redirect target =>
      mkResponse 302 (headers res) (Some target) (body res)
  | Status code =>
      mkResponse code (headers res) (location res) (body res)
  | Send b =>
      mkResponse (status res) (headers res) (location res) (Some b)
  | _ => res
  end.

Definition response_of (tr : list effect) : Response :=
  fold_left apply_effect tr fresh_response.

(** The log lines a trace writes to [console.error]. *)
Definition error_log (tr : list effect) : list value :=
  omap (fun e => match e with ConsoleError m => Some m | _ => None end) tr.

(** ** Startup and the event loop *)

(** [readyPromise]: pending with the [then] reactions registered so far
    (each remembers the request it will render), or resolved. *)
Inductive promise :=
| Pending (reactions : list (nat * Request))
| Resolved.

(** The variables of [server] that outlive startup.  [update_cb] records
    whether the closure [(bundle, options) => { renderer = ... }] was
    created and handed out; [created] counts the calls of
    [createRenderer]; [inflight] holds, per request, what the callback
    given to [renderToString] closes over; [trace] lists the effects so
    far, each with the request it belongs to. *)
Record State := mkState {
  renderer : option Renderer;
  readyPromise : option promise;
  update_cb : bool;
  created : nat;
  inflight : gmap nat (Request * Z);
  trace : list (nat * effect)
}.

Definition templatePath : string := resolve (Config.template config).

(** The body of [server] up to the two branches on [isProd]; [None] when
    reading one of the files throws. *)
Definition server_start : option State :=
  if isProd env then
    template ← readFileSync templatePath;
    bundle ← require (resolve "./dist/vue-ssr-server-bundle.json");
    clientManifest ← require (resolve "./dist/vue-ssr-client-manifest.json");
    Some (mkState
            (Some (createRenderer bundle
                     {[ "template" := VStr template;
                        "clientManifest" := clientManifest ]}))
            None false 1%nat ∅ [])
  else
    Some (mkState None (Some (Pending [])) true 0%nat ∅ []).

(** Promise reactions waiting in the microtask queue. *)
Inductive microtask :=
| ReadyThen (id : nat) (req : Request)
| ContextThen (id : nat) (req : Request) (s : Z) (context : value).

Definition emit (st : State) (id : nat) (es : list effect) : State :=
  mkState (renderer st) (readyPromise st) (update_cb st) (created st)
          (inflight st) (trace st ++ map (pair id) es).

(** The synchronous part of [render(req, res)]: the header is set and the
    continuation is queued behind the context promise. *)
Definition render_begin (st : State) (now : Z) (id : nat) (req : Request)
  : State * list microtask :=
  (emit st id [SetHeader "Content-Type" "text/html"],
   [ContextThen id req now (context_promise req)]).

(** [context => { ... renderer.renderToString(context, cb) }] *)
Definition context_then (st : State) (id : nat) (req : Request) (s : Z)
  (context : value) : State :=
  match renderer st with
  | Some r =>
      let st' := emit st id [RenderToString r (merge_context req context)] in
      mkState (renderer st') (readyPromise st') (update_cb st') (created st')
              (<[id := (req, s)]> (inflight st')) (trace st')
  | None => emit st id [TypeError]
  end.

Definition run_microtask (st : State) (now : Z) (t : microtask)
  : State * list microtask :=
  match t with
  | ReadyThen id req => render_begin st now id req
  | ContextThen id req s context => (context_then st id req s context, [])
  end.

(** The microtask queue is emptied front to back; reactions queued on the
    way go to the end. *)
Fixpoint drain (fuel : nat) (st : State) (now : Z) (q : list microtask)
  : State :=
  match fuel, q with
  | S fuel', t :: q' =>
      let '(st', more) := run_microtask st now t in
      drain fuel' st' now (q' ++ more)
  | _, _ => st
  end.

(** A [ReadyThen] queues one further reaction, a [ContextThen] none. *)
Definition weight (t : microtask) : nat :=
  match t with
  | ReadyThen _ _ => 2
  | ContextThen _ _ _ _ => 1
  end.

Definition drain_all (st : State) (now : Z) (q : list microtask) : State :=
  drain (list_sum (map weight q)) st now q.

(** The route handler of [app.get('*', ...)]. *)
Definition on_request (st : State) (now : Z) (id : nat) (req : Request)
  : State * list microtask :=
  if isProd env then render_begin st now id req
  else
    match readyPromise st with
    | Some (Pending reactions) =>
        (mkState (renderer st) (Some (Pending (reactions ++ [(id, req)])))
                 (update_cb st) (created st) (inflight st) (trace st), [])
    | Some Resolved => (st, [ReadyThen id req])
    | None => (emit st id [TypeError], [])
    end.

(** The two things the development build watcher can do with what
    [server] gave it: resolve [readyPromise], and call the update
    callback with a bundle and options. *)
Inductive dev_action :=
| Ready
| Update (bundle : value) (options : gmap string value).

Definition dev_step (acc : State * list microtask) (a : dev_action)
  : State * list microtask :=
  let '(st, q) := acc in
  match a with
  | Ready =>
      match readyPromise st with
      | Some (Pending reactions) =>
          (mkState (renderer st) (Some Resolved) (update_cb st) (created st)
                   (inflight st) (trace st),
           q ++ map (fun w => ReadyThen (fst w) (snd w)) reactions)
      | _ => (st, q)
      end
  | Update bundle options =>
      if update_cb st then
        (mkState (Some (createRenderer bundle options)) (readyPromise st)
                 (update_cb st) (S (created st)) (inflight st) (trace st), q)
      else (st, q)
  end.

(** The renderer calls back for request [id]. *)
Definition on_settled (st : State) (now : Z) (id : nat) (err html : value)
  : State :=
  match inflight st !! id with
  | Some (req, s) =>
      let st' := emit st id (renderToString_callback req s now err html) in
      mkState (renderer st') (readyPromise st') (update_cb st') (created st')
              (delete id (inflight st')) (trace st')
  | None => st
  end.

(** One turn of the event loop: a request reaches the catch-all route, the
    build watcher runs, or a renderer settles; the microtask queue is
    emptied before the next turn. *)
Inductive event :=
| Incoming (now : Z) (id : nat) (req : Request)
| DevServer (now : Z) (acts : list dev_action)
| Settled (now : Z) (id : nat) (err html : value).

Definition step (st : State) (ev : event) : State :=
  match ev with
  | Incoming now id req =>
      let '(st', q) := on_request st now id req in drain_all st' now q
  | DevServer now acts =>
      let '(st', q) := fold_left dev_step acts (st, []) in drain_all st' now q
  | Settled now id err html => on_settled st now id err html
  end.

Definition run (st : State) (evs : list event) : State :=
  fold_left step evs st.

(** The bundles and options a turn of the build watcher passes to the
    update callback, in order. *)
Definition builds (acts : list dev_action)
  : list (value * gmap string value) :=
  omap (fun a => match a with
                 | Update bundle options => Some (bundle, options)
                 | Ready => None
                 end) acts.

(** The effects of emptying a queue while [renderer] holds [r]: what the
    queued reactions do themselves, then what the reactions they queued
    do. *)
Definition first_pass (r : Renderer) (q : list microtask)
  : list (nat * effect) :=
  map (fun t => match t with
                | ReadyThen id req =>
                    (id, SetHeader "Content-Type" "text/html")
                | ContextThen id req _ context =>
                    (id, RenderToString r (merge_context req context))
                end) q.

Definition second_pass (r : Renderer) (q : list microtask)
  : list (nat * effect) :=
  omap (fun t => match t with
                 | ReadyThen id req =>
                     Some (id, RenderToString r (render_context req))
                 | ContextThen _ _ _ _ => None
                 end) q.

(** Whether a turn of the build watcher resolves [readyPromise]. *)
Definition resolves_ready (acts : list dev_action) : bool :=
  existsb (fun a => match a with Ready => true | Update _ _ => false end) acts.

(** The requests that reached the catch-all route, in order. *)
Definition arrivals (evs : list event) : list (nat * Request) :=
  omap (fun ev => match ev with
                  | Incoming _ id req => Some (id, req)
                  | _ => None
                  end) evs.

(** ** Listening *)

(** [a || b] on values: the left operand when it is truthy, else the
    right one. *)
Definition js_or (a b : value) : value := if truthy a then a else b.

(** The value of [process.env.X]: a string, or [undefined]. *)
Definition env_value (x : option string) : value :=
  match x with
  | Some s => VStr s
  | None => VUndefined
  end.

(** [config.port || process.env.PORT || 8080] *)
Definition listen_port : value :=
  js_or (js_or (Config.port config) (env_value (PORT env))) (VNum 8080).

(** ** Reading traces *)

(** The calls that end a response: [res.send] and [res.redirect]. *)
Definition terminal (e : effect) : bool :=
  match e with
  | Send _ | Redirect _ => true
  | _ => false
  end.

(** The lines a trace writes to [console.log]. *)
Definition console_log (tr : list effect) : list string :=
  omap (fun e => match e with ConsoleLog m => Some m | _ => None end) tr.

Definition is_header (e : effect) : bool :=
  match e with
  | SetHeader _ _ => true
  | _ => false
  end.

Definition is_render (e : effect) : bool :=
  match e with
  | RenderToString _ _ => true
  | _ => false
  end.

(** What only the callback given to [renderToString] does. *)
Definition answers (e : effect) : bool :=
  match e with
  | Redirect _ | Status _ | Send _ | ConsoleError _ | ConsoleLog _
  | CallHandleError _ _ => true
  | _ => false
  end.

(** Request [id] has an effect satisfying [P] in [tr]. *)
Definition has (tr : list (nat * effect)) (id : nat) (P : effect -> bool)
  : Prop :=
  exists m e, tr !! m = Some (id, e) /\ P e = true.

(** Every effect of a request that satisfies [Q] comes after an effect of
    the same request that satisfies [P]. *)
Definition precedes (tr : list (nat * effect)) (P Q : effect -> bool)
  : Prop :=
  forall n id e,
    tr !! n = Some (id, e) -> Q e = true ->
    exists m e', (m < n)%nat /\ tr !! m = Some (id, e') /\ P e' = true.

(** What the reactions of a queue leave in [inflight] when a renderer is
    in place: the queued continuations first, then those of the requests
    whose [render] starts in this turn, at time [now]. *)
Definition entries (now : Z) (q : list microtask)
  : list (nat * (Request * Z)) :=
  omap (fun t => match t with
                 | ContextThen id req s _ => Some (id, (req, s))
                 | ReadyThen _ _ => None
                 end) q ++
  omap (fun t => match t with
                 | ReadyThen id req => Some (id, (req, now))
                 | ContextThen _ _ _ _ => None
                 end) q.

(** The effects of emptying a queue while [renderer] is still
    [undefined]: every continuation that reaches [renderer.renderToString]
    throws. *)
Definition first_pass_unbuilt (q : list microtask) : list (nat * effect) :=
  map (fun t => match t with
                | ReadyThen id _ => (id, SetHeader "Content-Type" "text/html")
                | ContextThen id _ _ _ => (id, TypeError)
                end) q.

Definition second_pass_unbuilt (q : list microtask) : list (nat * effect) :=
  omap (fun t => match t with
                 | ReadyThen id _ => Some (id, TypeError)
                 | ContextThen _ _ _ _ => None
                 end) q.

(** The order every turn keeps: a request is answered only after the
    renderer was called for it, the renderer is called only after the
    header was set, and a callback is awaited only for a call that was
    made. *)
Definition causal (st : State) : Prop :=
  precedes (trace st) is_render answers /\
  precedes (trace st) is_header is_render /\
  forall id x, inflight st !! id = Some x -> has (trace st) id is_render.

(** The continuations in the queue belong to requests whose header is
    set. *)
Definition queued (st : State) (q : list microtask) : Prop :=
  forall id req s context,
    In (ContextThen id req s context) q -> has (trace st) id is_header.

End Server.

(** As long as the handle is empty no renderer has been created. *)
Definition unbuilt (st : State) : Prop :=
  renderer st = None -> created st = 0%nat.

(** What section 4.1 of the specification asks for instead: the hook is
    called on the request and its (awaited) result is laid over the
    defaults. *)
Definition spec_render_context (config : Config.t) (req : Request)
  : gmap string value :=
  merge_context req (Config.context config req).

(** Durations in milliseconds, as the specification names them. *)
Definition thirty_days : Z := 30 * 24 * 60 * 60 * 1000.
Definition fifteen_minutes : Z := 15 * 60 * 1000.

(** ** Fixtures *)

Definition join_path (dir file : string) : string := dir ++ "/" ++ file.

Definition sample_readFileSync (p : string) : option string :=
  if String.eqb p "/srv/app/index.template.html"
  then Some "<html><!--vue-ssr-outlet--></html>" else None.

Definition sample_require (p : string) : option value :=
  if String.eqb p "/srv/app/./dist/vue-ssr-server-bundle.json"
  then Some (VObj {[ "entry" := VStr "main.js" ]})
  else if String.eqb p "/srv/app/./dist/vue-ssr-client-manifest.json"
  then Some (VObj {[ "publicPath" := VStr "/dist/" ]})
  else None.

Definition sample_config (context : Request -> value)
  (handleError : option string) : Config.t :=
  Config.mk "/srv/app" "index.template.html" VUndefined VUndefined
            (VStr "404 | Page Not Found") (VStr "500 | Internal Server Error")
            context handleError.

Definition no_context (_ : Request) : value := VObj ∅.
Definition url_context (_ : Request) : value := VObj {[ "url" := VStr "/x" ]}.
Definition title_context (_ : Request) : value :=
  VObj {[ "title" := VStr "Custom" ]}.

Definition plain_config : Config.t := sample_config no_context None.
Definition hooked_config : Config.t := sample_config no_context (Some "report").

Definition production : ProcessEnv := mkEnv (Some "production") None None.
Definition development : ProcessEnv := mkEnv None None None.
Definition uncached : ProcessEnv := mkEnv (Some "production") (Some "false") None.

Definition home : Request := mkRequest "/y" "/y".

Definition sample_renderer : Renderer :=
  createRenderer join_path plain_config (VObj ∅) ∅.

(** ** Environment switches *)

Lemma env_is_spec (x : option string) (lit : string) :
  env_is x lit = true <-> x = Some lit.
Proof.
  destruct x as [s|]; simpl.
  - rewrite String.eqb_eq. split; congruence.
  - split; discriminate.
Qed.

Lemma isProd_spec (env : ProcessEnv) :
  isProd env = true <-> NODE_ENV env = Some "production".
Proof. apply env_is_spec. Qed.

Lemma useMicroCache_off (env : ProcessEnv) :
  useMicroCache env = false <-> MICRO_CACHE env = Some "false".
Proof. unfold useMicroCache. rewrite negb_false_iff. apply env_is_spec. Qed.

(** C10: the micro-cache is switched off exactly when [MICRO_CACHE] is
    the string "false"; "False", "FALSE", "0" and an unset variable all
    leave it on. *)
Theorem useMicroCache_strict (env : ProcessEnv) :
  (useMicroCache env = false <-> MICRO_CACHE env = Some "false") /\
  (forall node port v,
     In v [Some "False"; Some "FALSE"; Some "0"; Some ""; Some "true"; None] ->
     useMicroCache (mkEnv node v port) = true).
Proof.
  split.
  - apply useMicroCache_off.
  - intros node port v Hv. simpl in Hv.
    repeat destruct Hv as [<- | Hv]; try reflexivity. contradiction.
Qed.

Lemma useMicroCache_strict_witness :
  useMicroCache (mkEnv None (Some "FALSE") None) = true.
Proof.
  apply (proj2 (useMicroCache_strict development) None None (Some "FALSE")).
  simpl. tauto.
Defined.

(** ** Micro-cache *)

Lemma cacheKey_enabled (env : ProcessEnv) (req : Request) :
  useMicroCache env = true -> cacheKey env req = VStr (originalUrl req).
Proof. intros H. unfold cacheKey, js_and. simpl. now rewrite H. Qed.

Lemma cacheKey_disabled (env : ProcessEnv) (req : Request) :
  useMicroCache env = false -> cacheKey env req = VBool false.
Proof. intros H. unfold cacheKey, js_and. simpl. now rewrite H. Qed.

(** C8: with [MICRO_CACHE] set to "false" every request skips the
    micro-cache, whatever the cache holds; otherwise the key is the
    request's full URL, and a request with a URL is filed under it for one
    second. *)
Theorem microcache_toggle (env : ProcessEnv) (req : Request) :
  (MICRO_CACHE env = Some "false" ->
     microcache env req = Bypass /\
     forall store now, cached_response store now (microcache env req) = None) /\
  (MICRO_CACHE env <> Some "false" ->
     cacheKey env req = VStr (originalUrl req) /\
     (originalUrl req <> "" ->
        microcache env req = Cached 1000 (VStr (originalUrl req)) /\
        forall store now,
          cached_response store now (microcache env req) =
          match store !! originalUrl req with
          | Some (expires, page) => if now <? expires then Some page else None
          | None => None
          end)).
Proof.
  split.
  - intros Hoff.
    assert (Hk : cacheKey env req = VBool false).
    { apply cacheKey_disabled. now apply useMicroCache_off. }
    assert (Hm : microcache env req = Bypass).
    { unfold microcache, cacheSeconds. now rewrite Hk. }
    split; [exact Hm | intros store now; now rewrite Hm].
  - intros Hon.
    assert (Hk : cacheKey env req = VStr (originalUrl req)).
    { apply cacheKey_enabled. destruct (useMicroCache env) eqn:E; [reflexivity|].
      exfalso. apply Hon. now apply useMicroCache_off. }
    split; [exact Hk|]. intros Hurl.
    assert (Hm : microcache env req = Cached 1000 (VStr (originalUrl req))).
    { unfold microcache, cacheSeconds. rewrite Hk. simpl.
      destruct (String.eqb (originalUrl req) "") eqn:E; [|reflexivity].
      apply String.eqb_eq in E. contradiction. }
    split; [exact Hm | intros store now; now rewrite Hm].
Qed.

Lemma microcache_toggle_witness :
  microcache uncached home = Bypass /\
  microcache production home = Cached 1000 (VStr "/y").
Proof.
  split.
  - apply (proj1 (microcache_toggle uncached home)). reflexivity.
  - apply (proj2 (microcache_toggle production home)); discriminate.
Defined.

(** ** Static assets *)

(** C7: a static route gets the 30-day [maxAge] exactly when it is
    mounted as cacheable and the process runs in production, and 0
    otherwise; [/dist], [/public] and [/manifest.json] are cacheable,
    [/service-worker.js] is not. *)
Theorem serve_maxAge (path_resolve : string -> string -> string)
  (config : Config.t) (env : ProcessEnv) :
  (forall path cache,
     (maxAge (serve path_resolve config env path cache) = thirty_days <->
      cache = true /\ NODE_ENV env = Some "production") /\
     (maxAge (serve path_resolve config env path cache) = 0 <->
      ~ (cache = true /\ NODE_ENV env = Some "production"))) /\
  map (fun r => (fst r, maxAge (snd r))) (static_routes path_resolve config env) =
    [ ("/dist", if isProd env then thirty_days else 0);
      ("/public", if isProd env then thirty_days else 0);
      ("/manifest.json", if isProd env then thirty_days else 0);
      ("/service-worker.js", 0) ] /\
  static_routes path_resolve config env =
    [ ("/dist", serve path_resolve config env "./dist" true);
      ("/public", serve path_resolve config env "./public" true);
      ("/manifest.json", serve path_resolve config env "./manifest.json" true);
      ("/service-worker.js",
       serve path_resolve config env "./dist/service-worker.js" false) ].
Proof.
  split; [|split].
  - intros path cache. rewrite <- isProd_spec. unfold serve. simpl.
    destruct cache, (isProd env); simpl; unfold thirty_days;
      (split; split; try lia; try tauto; try discriminate;
       try (intros [? ?]; discriminate); intros H; exfalso; apply H; tauto).
  - unfold static_routes, serve. simpl. reflexivity.
  - reflexivity.
Qed.

Lemma serve_maxAge_witness :
  maxAge (serve join_path plain_config production "./dist" true) = thirty_days.
Proof.
  apply (proj1 (serve_maxAge join_path plain_config production)).
  split; reflexivity.
Defined.

(** ** Renderer factory *)

Lemma Object_assign_lookup_source (target props : gmap string value)
  (k : string) (v : value) :
  props !! k = Some v -> Object_assign target (VObj props) !! k = Some v.
Proof. intros H. unfold Object_assign. simpl. now apply lookup_union_Some_l. Qed.

Lemma Object_assign_lookup_target (target props : gmap string value)
  (k : string) :
  props !! k = None ->
  Object_assign target (VObj props) !! k = target !! k.
Proof. intros H. unfold Object_assign. simpl. now apply lookup_union_r. Qed.

(** C6: whatever bundle and options the factory is given, the renderer
    is built with an LRU cache of at most 1000 entries that expire after
    15 minutes, and with [runInNewContext] switched off; the other
    options of the caller are passed through. *)
Theorem createRenderer_options (path_resolve : string -> string -> string)
  (config : Config.t) (bundle : value) (options : gmap string value) :
  let r := createRenderer path_resolve config bundle options in
  r_bundle r = bundle /\
  r_options r !! "cache" = Some (VLru 1000 fifteen_minutes) /\
  r_options r !! "runInNewContext" = Some (VBool false) /\
  forall k, k <> "cache" -> k <> "basedir" -> k <> "runInNewContext" ->
            r_options r !! k = options !! k.
Proof.
  simpl. unfold createRenderer, createBundleRenderer. simpl.
  split; [reflexivity|]. split; [|split].
  - apply Object_assign_lookup_source. now simplify_map_eq.
  - apply Object_assign_lookup_source. now simplify_map_eq.
  - intros k H1 H2 H3. apply Object_assign_lookup_target. now simplify_map_eq.
Qed.

Lemma createRenderer_options_witness :
  (r_options (createRenderer join_path plain_config (VObj ∅)
                {[ "cache" := VNull; "template" := VStr "<html>" ]}))
    !! "template" = Some (VStr "<html>").
Proof.
  etransitivity.
  - apply (createRenderer_options join_path plain_config (VObj ∅)
             {[ "cache" := VNull; "template" := VStr "<html>" ]});
      discriminate.
  - reflexivity.
Defined.

(** ** Render context *)

Lemma render_context_defaults (req : Request) :
  render_context req = {[ "title" := VStr "App"; "url" := VStr (url req) ]}.
Proof.
  unfold render_context, merge_context, context_promise, Promise_resolve,
    Object_assign. simpl. apply (left_id_L ∅ (∪)).
Qed.

Lemma merge_context_override (req : Request) (props : gmap string value)
  (k : string) (v : value) :
  props !! k = Some v -> merge_context req (VObj props) !! k = Some v.
Proof. apply Object_assign_lookup_source. Qed.

Lemma merge_context_keep (req : Request) (props : gmap string value)
  (k : string) :
  props !! k = None ->
  merge_context req (VObj props) !! k =
  ({[ "title" := VStr "App"; "url" := VStr (url req) ]} : gmap string value) !! k.
Proof. apply Object_assign_lookup_target. Qed.

(** The two merges the specification lists, carried out on the hook's
    result. *)
Lemma spec_render_context_examples (req : Request) :
  spec_render_context (sample_config url_context None) req =
    {[ "title" := VStr "App"; "url" := VStr "/x" ]} /\
  spec_render_context (sample_config title_context None) req =
    {[ "title" := VStr "Custom"; "url" := VStr (url req) ]}.
Proof.
  split; apply map_eq; intros k;
    unfold spec_render_context, sample_config, url_context, title_context;
    simpl.
  - destruct (decide (k = "url")) as [->|Hu].
    + rewrite (merge_context_override _ _ "url" (VStr "/x")); now simplify_map_eq.
    + rewrite merge_context_keep by now simplify_map_eq.
      destruct (decide (k = "title")) as [->|Ht]; now simplify_map_eq.
  - destruct (decide (k = "title")) as [->|Ht].
    + rewrite (merge_context_override _ _ "title" (VStr "Custom"));
        now simplify_map_eq.
    + rewrite merge_context_keep by now simplify_map_eq.
      destruct (decide (k = "url")) as [->|Hu]; now simplify_map_eq.
Qed.

(** C1, at the request [/y] with the hook [req => ({ url: "/x" })]: the
    renderer is handed the defaults alone, [{ title: "App", url: "/y" }],
    where the specification asks for [{ title: "App", url: "/x" }]; the
    hook is wrapped in an arrow function that nothing calls. *)
Theorem context_hook_not_called :
  render (sample_config url_context None) production (Some sample_renderer)
         home 0 5 VNull (VStr "<html>OK</html>") =
    [ SetHeader "Content-Type" "text/html";
      RenderToString sample_renderer
        {[ "title" := VStr "App"; "url" := VStr "/y" ]};
      Send (VStr "<html>OK</html>") ] /\
  call (sample_config url_context None) (ContextThunk home) =
    Some (VObj {[ "url" := VStr "/x" ]}) /\
  spec_render_context (sample_config url_context None) home =
    {[ "title" := VStr "App"; "url" := VStr "/x" ]} /\
  render_context home <> spec_render_context (sample_config url_context None) home.
Proof.
  split; [|split; [|split]].
  - unfold render. rewrite render_context_defaults. reflexivity.
  - reflexivity.
  - apply spec_render_context_examples.
  - rewrite render_context_defaults.
    rewrite (proj1 (spec_render_context_examples home)).
    intros H. apply (f_equal (fun m => m !! "url")) in H.
    simplify_map_eq.
Qed.

(** ** Failures and successes of a render *)

Lemma strict_eq_num_spec (v : value) (n : Z) :
  strict_eq_num v n = true <-> v = VNum n.
Proof.
  destruct v; simpl; try (split; [discriminate | congruence]).
  rewrite Z.eqb_eq. split; congruence.
Qed.

(** C2: the default handler looks at the failure (a truthy value, or
    [render] would not have called it) in a fixed order.  A
    truthy [url] gives a redirect to it and nothing else: no status, no
    body, no log line.  Failing that, a [code] that is the number 404
    gives status 404 with the configured [status404] body.  Everything
    else gives status 500 with the configured [status500] body and two
    error-log entries: one with the request URL, one with the failure's
    stack. *)
Theorem handleError_classification (config : Config.t) (req : Request)
  (err : value) (res : Response) :
  truthy err = true ->
  let tr := handleError config req err in
  let res' := fold_left apply_effect tr res in
  (truthy (get err "url") = true ->
     tr = [Redirect (get err "url")] /\
     location res' = Some (get err "url") /\ status res' = 302 /\
     body res' = body res /\ error_log tr = []) /\
  (truthy (get err "url") = false -> get err "code" = VNum 404 ->
     tr = [Status 404; Send (Config.status404 config)] /\
     status res' = 404 /\ body res' = Some (Config.status404 config) /\
     location res' = location res /\ error_log tr = []) /\
  (truthy (get err "url") = false -> get err "code" <> VNum 404 ->
     tr = [Status 500; Send (Config.status500 config);
           ConsoleError (VStr ("error during render : " ++ url req));
           ConsoleError (get err "stack")] /\
     status res' = 500 /\ body res' = Some (Config.status500 config) /\
     location res' = location res /\
     error_log tr = [VStr ("error during render : " ++ url req);
                     get err "stack"]).
Proof.
  intros _. simpl. unfold handleError. split; [|split].
  - intros Hu. rewrite Hu. simpl. repeat split; reflexivity.
  - intros Hu Hc. rewrite Hu.
    apply strict_eq_num_spec in Hc. rewrite Hc. simpl.
    repeat split; reflexivity.
  - intros Hu Hc. rewrite Hu.
    destruct (strict_eq_num (get err "code") 404) eqn:E.
    + apply strict_eq_num_spec in E. contradiction.
    + simpl. repeat split; reflexivity.
Qed.

Lemma handleError_classification_witness :
  handleError plain_config home (VObj {[ "url" := VStr "/foo" ]}) =
    [Redirect (VStr "/foo")] /\
  handleError plain_config home (VObj {[ "code" := VNum 404 ]}) =
    [Status 404; Send (VStr "404 | Page Not Found")] /\
  error_log (handleError plain_config home (VObj {[ "stack" := VStr "Error: boom" ]})) =
    [VStr "error during render : /y"; VStr "Error: boom"].
Proof.
  split; [|split].
  - destruct (handleError_classification plain_config home
                (VObj {[ "url" := VStr "/foo" ]}) fresh_response eq_refl)
      as (H & _ & _).
    apply H. reflexivity.
  - destruct (handleError_classification plain_config home
                (VObj {[ "code" := VNum 404 ]}) fresh_response eq_refl)
      as (_ & H & _).
    apply H; reflexivity.
  - destruct (handleError_classification plain_config home
                (VObj {[ "stack" := VStr "Error: boom" ]}) fresh_response eq_refl)
      as (_ & _ & H).
    apply H; [reflexivity | discriminate].
Defined.

(** C3: when the renderer calls back without an error and with the HTML
    string [h], the handler's calls on the response are, in order, the
    Content-Type header [text/html] and then [send(h)]; nothing touches
    the status, so the response is a 200 whose body is exactly [h].  The
    only further effect is the timing line outside production. *)
Theorem render_success (config : Config.t) (env : ProcessEnv) (r : Renderer)
  (req : Request) (s now : Z) (err : value) (h : string) :
  truthy err = false ->
  let tr := render config env (Some r) req s now err (VStr h) in
  (exists timing,
     tr = [ SetHeader "Content-Type" "text/html";
            RenderToString r (render_context req);
            Send (VStr h) ] ++ map ConsoleLog timing) /\
  status (response_of tr) = 200 /\
  headers (response_of tr) !! "Content-Type" = Some "text/html" /\
  body (response_of tr) = Some (VStr h) /\
  location (response_of tr) = None /\
  error_log tr = [].
Proof.
  intros Herr. simpl. unfold render, renderToString_callback. rewrite Herr.
  destruct (isProd env); simpl.
  - split; [exists []; reflexivity|]. unfold response_of. simpl.
    repeat split; first [reflexivity | apply lookup_insert_eq].
  - split; [eexists [_]; reflexivity|]. unfold response_of. simpl.
    repeat split; first [reflexivity | apply lookup_insert_eq].
Qed.

Lemma render_success_witness :
  body (response_of (render plain_config production (Some sample_renderer)
                       home 0 5 VNull (VStr "<html>OK</html>"))) =
  Some (VStr "<html>OK</html>").
Proof.
  destruct (render_success plain_config production sample_renderer home 0 5
              VNull "<html>OK</html>" eq_refl) as (_ & _ & _ & H & _).
  exact H.
Defined.

(** C4: with a custom [handleError] configured, a failing render ends in
    one call of that hook with the failure, whatever the failure looks
    like: no redirect, no status, no body and no log line come from the
    default handler. *)
Theorem custom_handler_replaces_default (config : Config.t) (env : ProcessEnv)
  (r : Renderer) (req : Request) (s now : Z) (err html : value)
  (hook : string) :
  Config.handleError config = Some hook ->
  truthy err = true ->
  let tr := render config env (Some r) req s now err html in
  tr = [ SetHeader "Content-Type" "text/html";
         RenderToString r (render_context req);
         CallHandleError hook err ] /\
  (forall e, In e (handleError config req err) -> ~ In e tr) /\
  status (response_of tr) = 200 /\
  body (response_of tr) = None /\
  location (response_of tr) = None /\
  error_log tr = [].
Proof.
  intros Hh Herr. simpl. unfold render, renderToString_callback.
  rewrite Herr, Hh. split; [reflexivity|]. split; [|repeat split].
  intros e He Hin. unfold handleError in He. simpl in Hin.
  destruct (truthy (get err "url"));
    [|destruct (strict_eq_num (get err "code") 404)];
    simpl in He; intuition (subst; discriminate).
Qed.

Lemma custom_handler_replaces_default_witness :
  render hooked_config production (Some sample_renderer) home 0 5
         (VObj {[ "code" := VNum 404 ]}) VUndefined =
  [ SetHeader "Content-Type" "text/html";
    RenderToString sample_renderer (render_context home);
    CallHandleError "report" (VObj {[ "code" := VNum 404 ]}) ].
Proof.
  destruct (custom_handler_replaces_default hooked_config production
              sample_renderer home 0 5 (VObj {[ "code" := VNum 404 ]})
              VUndefined "report" eq_refl eq_refl) as (H & _).
  exact H.
Defined.

(** ** The event loop *)

Lemma run_microtask_frame (st : State) (now : Z) (t : microtask) :
  let st' := fst (run_microtask st now t) in
  renderer st' = renderer st /\ readyPromise st' = readyPromise st /\
  update_cb st' = update_cb st /\ created st' = created st.
Proof.
  destruct t; simpl; [tauto|].
  unfold context_then. destruct (renderer st) eqn:E; simpl; rewrite ?E; tauto.
Qed.

(** Emptying the microtask queue touches neither the renderer handle nor
    the readiness promise. *)
Lemma drain_frame (fuel : nat) :
  forall (st : State) (now : Z) (q : list microtask),
  let st' := drain fuel st now q in
  renderer st' = renderer st /\ readyPromise st' = readyPromise st /\
  update_cb st' = update_cb st /\ created st' = created st.
Proof.
  induction fuel as [|fuel IH]; intros st now q; simpl; [tauto|].
  destruct q as [|t q]; simpl; [tauto|].
  pose proof (run_microtask_frame st now t) as Hf. simpl in Hf.
  destruct (run_microtask st now t) as [st1 more]. simpl in Hf.
  destruct (IH st1 now (q ++ more)) as (H1 & H2 & H3 & H4).
  destruct Hf as (F1 & F2 & F3 & F4).
  repeat split; congruence.
Qed.

Lemma weight_pos (t : microtask) : (1 <= weight t)%nat.
Proof. destruct t; simpl; lia. Qed.

Lemma list_sum_app (l1 l2 : list nat) :
  list_sum (l1 ++ l2) = (list_sum l1 + list_sum l2)%nat.
Proof. induction l1 as [|x l1 IH]; simpl; [reflexivity | rewrite IH; lia]. Qed.

(** With fuel for every reaction, the queue is emptied completely, and
    with a renderer in place its effects are the two passes. *)
Lemma drain_trace (r : Renderer) (now : Z) (fuel : nat) :
  forall (st : State) (q : list microtask),
  renderer st = Some r ->
  (list_sum (map weight q) <= fuel)%nat ->
  trace (drain fuel st now q) = trace st ++ first_pass r q ++ second_pass r q.
Proof.
  induction fuel as [|fuel IH]; intros st q Hr Hfuel.
  - destruct q as [|t q]; simpl in *.
    + now rewrite app_nil_r.
    + pose proof (weight_pos t). lia.
  - destruct q as [|t q]; simpl in *; [now rewrite app_nil_r|].
    destruct t as [id req | id req s context]; simpl in *.
    + rewrite IH; simpl; [| exact Hr |].
      * unfold first_pass, second_pass. rewrite map_app, omap_app. simpl.
        rewrite app_nil_r, <- !app_assoc. reflexivity.
      * rewrite map_app, list_sum_app. simpl. lia.
    + rewrite app_nil_r. unfold context_then. rewrite Hr. simpl.
      rewrite IH; simpl; [| exact Hr | lia].
      rewrite <- app_assoc. reflexivity.
Qed.

Section Loop.

Context (path_resolve : string -> string -> string) (config : Config.t)
  (env : ProcessEnv).

(** A turn of the build watcher leaves the trace and the renderers in
    flight alone; it resolves a pending [readyPromise] when it says so,
    queueing the reactions registered on it. *)
Lemma dev_steps_promise (acts : list dev_action) :
  forall (st : State) (q : list microtask),
  let st' := fst (fold_left (dev_step path_resolve config) acts (st, q)) in
  let q' := snd (fold_left (dev_step path_resolve config) acts (st, q)) in
  trace st' = trace st /\ inflight st' = inflight st /\
  update_cb st' = update_cb st /\
  match readyPromise st with
  | Some (Pending ws) =>
      if resolves_ready acts
      then readyPromise st' = Some Resolved /\
           q' = q ++ map (fun w => ReadyThen (fst w) (snd w)) ws
      else readyPromise st' = Some (Pending ws) /\ q' = q
  | other => readyPromise st' = other /\ q' = q
  end.
Proof.
  induction acts as [|a acts IH]; intros st q; simpl.
  - destruct (readyPromise st) as [[ws|]|]; tauto.
  - destruct a as [|bundle options]; simpl.
    + destruct (readyPromise st) as [[ws|]|] eqn:E.
      * specialize (IH (mkState (renderer st) (Some Resolved) (update_cb st)
                          (created st) (inflight st) (trace st))
                       (q ++ map (fun w => ReadyThen (fst w) (snd w)) ws)).
        simpl in IH. tauto.
      * specialize (IH st q). simpl in IH. rewrite E in IH. tauto.
      * specialize (IH st q). simpl in IH. rewrite E in IH. tauto.
    + destruct (update_cb st) eqn:U.
      * specialize (IH (mkState (Some (createRenderer path_resolve config bundle options))
                          (readyPromise st) (update_cb st) (S (created st))
                          (inflight st) (trace st)) q).
        simpl in IH. rewrite U in *. exact IH.
      * specialize (IH st q). simpl in IH. rewrite U in IH. exact IH.
Qed.

(** With the update callback in place, every build replaces the handle. *)
Lemma dev_steps_renderer (acts : list dev_action) :
  forall (st : State) (q : list microtask),
  update_cb st = true ->
  let st' := fst (fold_left (dev_step path_resolve config) acts (st, q)) in
  renderer st' = fold_left
      (fun (h : option Renderer) (bo : value * gmap string value) =>
         Some (createRenderer path_resolve config (fst bo) (snd bo)))
      (builds acts) (renderer st) /\
  created st' = (created st + length (builds acts))%nat.
Proof.
  induction acts as [|a acts IH]; intros st q U; simpl.
  - split; [reflexivity | lia].
  - destruct a as [|bundle options]; simpl.
    + destruct (readyPromise st) as [[ws|]|]; [|exact (IH st q U) ..].
      exact (IH (mkState (renderer st) (Some Resolved) (update_cb st)
                   (created st) (inflight st) (trace st)) _ U).
    + rewrite U.
      destruct (IH (mkState (Some (createRenderer path_resolve config bundle options))
                      (readyPromise st) (update_cb st) (S (created st))
                      (inflight st) (trace st)) q U) as [H1 H2].
      simpl in *. rewrite U in H1, H2. split; [exact H1 | lia].
Qed.

(** Without it, nothing the build watcher does reaches the handle. *)
Lemma dev_steps_no_callback (acts : list dev_action) :
  forall (st : State) (q : list microtask),
  update_cb st = false ->
  let st' := fst (fold_left (dev_step path_resolve config) acts (st, q)) in
  renderer st' = renderer st /\ created st' = created st.
Proof.
  induction acts as [|a acts IH]; intros st q U; simpl; [tauto|].
  destruct a as [|bundle options]; simpl.
  - destruct (readyPromise st) as [[ws|]|]; [|exact (IH st q U) ..].
    exact (IH (mkState (renderer st) (Some Resolved) (update_cb st)
                 (created st) (inflight st) (trace st)) _ U).
  - rewrite U. exact (IH st q U).
Qed.

Lemma drain_all_nil (st : State) (now : Z) : drain_all st now [] = st.
Proof. reflexivity. Qed.

Lemma on_request_frame (st : State) (now : Z) (id : nat) (req : Request) :
  let st' := fst (on_request env st now id req) in
  renderer st' = renderer st /\ update_cb st' = update_cb st /\
  created st' = created st.
Proof.
  unfold on_request. destruct (isProd env); simpl; [tauto|].
  destruct (readyPromise st) as [[ws|]|]; simpl; tauto.
Qed.

Lemma on_settled_frame (st : State) (now : Z) (id : nat) (err html : value) :
  let st' := on_settled config env st now id err html in
  renderer st' = renderer st /\ readyPromise st' = readyPromise st /\
  update_cb st' = update_cb st /\ created st' = created st.
Proof.
  unfold on_settled. destruct (inflight st !! id) as [[req s]|]; simpl; tauto.
Qed.

(** No turn of the loop creates or removes the update callback. *)
Lemma step_update_cb (st : State) (ev : event) :
  update_cb (step path_resolve config env st ev) = update_cb st.
Proof.
  destruct ev as [now id req | now acts | now id err html]; simpl.
  - pose proof (on_request_frame st now id req) as Hf. simpl in Hf.
    destruct (on_request env st now id req) as [st1 q]. simpl in Hf.
    destruct (drain_frame (list_sum (map weight q)) st1 now q) as (_ & _ & H & _).
    unfold drain_all. intuition congruence.
  - pose proof (dev_steps_promise acts st []) as Hp. simpl in Hp.
    destruct (fold_left (dev_step path_resolve config) acts (st, [])) as [st1 q]. simpl in Hp.
    destruct (drain_frame (list_sum (map weight q)) st1 now q) as (_ & _ & H & _).
    unfold drain_all. intuition congruence.
  - apply on_settled_frame.
Qed.

Lemma run_update_cb (evs : list event) :
  forall st, update_cb (run path_resolve config env st evs) = update_cb st.
Proof.
  induction evs as [|ev evs IH]; intros st; simpl; [reflexivity|].
  unfold run in *. simpl. rewrite IH. apply step_update_cb.
Qed.

(** Without the update callback the handle survives every turn. *)
Lemma step_no_callback (st : State) (ev : event) :
  update_cb st = false ->
  renderer (step path_resolve config env st ev) = renderer st /\ created (step path_resolve config env st ev) = created st.
Proof.
  intros U. destruct ev as [now id req | now acts | now id err html]; simpl.
  - pose proof (on_request_frame st now id req) as Hf. simpl in Hf.
    destruct (on_request env st now id req) as [st1 q]. simpl in Hf.
    destruct (drain_frame (list_sum (map weight q)) st1 now q) as (H1 & _ & _ & H2).
    unfold drain_all. intuition congruence.
  - pose proof (dev_steps_no_callback acts st [] U) as Hp. simpl in Hp.
    destruct (fold_left (dev_step path_resolve config) acts (st, [])) as [st1 q]. simpl in Hp.
    destruct (drain_frame (list_sum (map weight q)) st1 now q) as (H1 & _ & _ & H2).
    unfold drain_all. intuition congruence.
  - pose proof (on_settled_frame st now id err html) as Hf. simpl in Hf. tauto.
Qed.

Lemma run_no_callback (evs : list event) :
  forall st, update_cb st = false ->
  renderer (run path_resolve config env st evs) = renderer st /\ created (run path_resolve config env st evs) = created st.
Proof.
  induction evs as [|ev evs IH]; intros st U; simpl; [tauto|].
  unfold run in *. simpl.
  destruct (IH (step path_resolve config env st ev)) as [H1 H2].
  { rewrite step_update_cb. exact U. }
  destruct (step_no_callback st ev U) as [H3 H4]. split; congruence.
Qed.

(** In development, a turn that leaves [readyPromise] pending started
    with it pending, added at most the request it brought to the
    reactions, and rendered nothing. *)
Lemma step_pending (st : State) (ev : event) (ws' : list (nat * Request)) :
  isProd env = false ->
  readyPromise (step path_resolve config env st ev) = Some (Pending ws') ->
  exists ws,
    readyPromise st = Some (Pending ws) /\ ws' = ws ++ arrivals [ev] /\
    (inflight st = ∅ ->
     trace (step path_resolve config env st ev) = trace st /\ inflight (step path_resolve config env st ev) = ∅).
Proof.
  intros Hdev Hp.
  destruct ev as [now id req | now acts | now id err html]; simpl in *.
  - unfold on_request in *. rewrite Hdev in *.
    destruct (readyPromise st) as [[ws|]|] eqn:E.
    + rewrite drain_all_nil in *. simpl in *. exists ws.
      split; [reflexivity|]. split; [congruence | tauto].
    + destruct (drain_frame (list_sum (map weight [ReadyThen id req])) st now
                  [ReadyThen id req]) as (_ & H & _).
      unfold drain_all in Hp. congruence.
    + rewrite drain_all_nil in Hp. simpl in Hp. congruence.
  - pose proof (dev_steps_promise acts st []) as Hs.
    simpl in Hs.
    destruct (fold_left (dev_step path_resolve config) acts (st, [])) as [st1 q]. simpl in Hs.
    destruct Hs as (Ht & Hi & _ & Hs).
    destruct (drain_frame (list_sum (map weight q)) st1 now q) as (_ & H & _).
    unfold drain_all in Hp. rewrite H in Hp.
    destruct (readyPromise st) as [[ws|]|] eqn:E.
    + destruct (resolves_ready acts).
      * destruct Hs as [Hs _]. congruence.
      * destruct Hs as [Hs ->]. exists ws. rewrite app_nil_r.
        split; [reflexivity|]. split; [congruence|].
        rewrite drain_all_nil. intros He. split; congruence.
    + destruct Hs as [Hs _]. congruence.
    + destruct Hs as [Hs _]. congruence.
  - destruct (on_settled_frame st now id err html) as (_ & H & _).
    rewrite H in Hp. exists ws'. rewrite app_nil_r.
    split; [exact Hp|]. split; [reflexivity|].
    intros He. unfold on_settled. rewrite He, lookup_empty. tauto.
Qed.

Lemma arrivals_cons (ev : event) (evs : list event) :
  arrivals (ev :: evs) = arrivals [ev] ++ arrivals evs.
Proof. unfold arrivals. destruct ev; reflexivity. Qed.

Lemma run_pending (evs : list event) :
  forall (st : State) (ws' : list (nat * Request)),
  isProd env = false ->
  readyPromise (run path_resolve config env st evs) = Some (Pending ws') ->
  exists ws,
    readyPromise st = Some (Pending ws) /\ ws' = ws ++ arrivals evs /\
    (inflight st = ∅ ->
     trace (run path_resolve config env st evs) = trace st /\ inflight (run path_resolve config env st evs) = ∅).
Proof.
  induction evs as [|ev evs IH]; intros st ws' Hdev Hp.
  - exists ws'. rewrite app_nil_r. simpl in *. tauto.
  - unfold run in *. cbn [fold_left] in *.
    destruct (IH (step path_resolve config env st ev) ws' Hdev Hp) as (ws1 & H1 & -> & H3).
    destruct (step_pending st ev ws1 Hdev H1) as (ws & H4 & -> & H6).
    exists ws. split; [exact H4|]. split.
    + rewrite (arrivals_cons ev evs). symmetry. apply app_assoc.
    + intros He. destruct (H6 He) as [H7 H8].
      destruct (H3 H8) as [H9 H10]. split; congruence.
Qed.

Lemma first_pass_ready (r : Renderer) (ws : list (nat * Request)) :
  first_pass r (map (fun w => ReadyThen (fst w) (snd w)) ws) =
  map (fun w => (fst w, SetHeader "Content-Type" "text/html")) ws.
Proof. unfold first_pass. rewrite map_map. reflexivity. Qed.

Lemma second_pass_ready (r : Renderer) (ws : list (nat * Request)) :
  second_pass r (map (fun w => ReadyThen (fst w) (snd w)) ws) =
  map (fun w => (fst w, RenderToString r (render_context (snd w)))) ws.
Proof.
  unfold second_pass. induction ws as [|w ws IH]; simpl; [reflexivity|].
  f_equal. exact IH.
Qed.

(** The turn that resolves [readyPromise] renders every waiting request,
    in order of arrival, with the renderer its one build installs. *)
Lemma step_ready (st : State) (ws : list (nat * Request)) (now : Z)
  (acts : list dev_action) (bundle : value) (options : gmap string value) :
  readyPromise st = Some (Pending ws) ->
  update_cb st = true ->
  resolves_ready acts = true ->
  builds acts = [(bundle, options)] ->
  let r := createRenderer path_resolve config bundle options in
  let st' := step path_resolve config env st (DevServer now acts) in
  readyPromise st' = Some Resolved /\ renderer st' = Some r /\
  created st' = S (created st) /\
  trace st' =
    trace st ++
    map (fun w => (fst w, SetHeader "Content-Type" "text/html")) ws ++
    map (fun w => (fst w, RenderToString r (render_context (snd w)))) ws.
Proof.
  intros Hp Hu Hr Hb. simpl.
  pose proof (dev_steps_promise acts st []) as Hs.
  pose proof (dev_steps_renderer acts st [] Hu) as Hn.
  simpl in Hs, Hn.
  destruct (fold_left (dev_step path_resolve config) acts (st, [])) as [st1 q]. simpl in Hs, Hn.
  rewrite Hp, Hr in Hs. rewrite Hb in Hn. simpl in Hn.
  destruct Hs as (Ht & _ & _ & Hs1 & ->). destruct Hn as [Hn1 Hn2].
  unfold drain_all.
  destruct (drain_frame
              (list_sum (map weight (map (fun w => ReadyThen (fst w) (snd w)) ws)))
              st1 now (map (fun w => ReadyThen (fst w) (snd w)) ws))
    as (F1 & F2 & _ & F4).
  split; [congruence|]. split; [congruence|]. split; [lia|].
  rewrite (drain_trace (createRenderer path_resolve config bundle options));
    [| exact Hn1 | lia].
  rewrite first_pass_ready, second_pass_ready, Ht. reflexivity.
Qed.

(** In production the route handler is [render] itself: the turn that
    brings the request sets the header and calls the renderer. *)
Lemma step_production (st : State) (r : Renderer) (now : Z) (id : nat)
  (req : Request) :
  isProd env = true ->
  renderer st = Some r ->
  trace (step path_resolve config env st (Incoming now id req)) =
    trace st ++ [ (id, SetHeader "Content-Type" "text/html");
                  (id, RenderToString r (render_context req)) ].
Proof.
  intros Hprod Hr. simpl. unfold on_request. rewrite Hprod. simpl.
  unfold drain_all. simpl. unfold context_then. simpl. rewrite Hr. simpl.
  rewrite <- app_assoc. reflexivity.
Qed.

(** A request that is rendered at once, and the callback of its
    renderer: together the two turns produce the effects of [render]. *)
Lemma run_render (st : State) (r : Renderer) (now now' : Z) (id : nat)
  (req : Request) (err html : value) :
  isProd env = true \/ readyPromise st = Some Resolved ->
  renderer st = Some r ->
  trace (run path_resolve config env st
           [Incoming now id req; Settled now' id err html]) =
    trace st ++ map (pair id) (render config env (Some r) req now now' err html).
Proof.
  intros Hmode Hr. unfold run. cbn [fold_left].
  assert (Hstep : exists st1,
             step path_resolve config env st (Incoming now id req) = st1 /\
             inflight st1 !! id = Some (req, now) /\
             trace st1 = trace st ++
               [ (id, SetHeader "Content-Type" "text/html");
                 (id, RenderToString r (render_context req)) ]).
  { eexists. split; [reflexivity|]. simpl. unfold on_request.
    destruct (isProd env) eqn:E.
    - simpl. unfold drain_all. simpl. unfold context_then. simpl.
      rewrite Hr. simpl. rewrite lookup_insert_eq, <- app_assoc. tauto.
    - destruct Hmode as [Hmode | Hmode]; [discriminate|]. rewrite Hmode.
      unfold drain_all. simpl. unfold context_then. simpl.
      rewrite Hr. simpl. rewrite lookup_insert_eq, <- app_assoc. tauto. }
  destruct Hstep as (st1 & -> & Hi & Ht).
  cbn [step]. unfold on_settled. rewrite Hi. simpl. rewrite Ht.
  unfold render. simpl. rewrite <- app_assoc. reflexivity.
Qed.

End Loop.

Section FirstRenderer.

Context (path_resolve : string -> string -> string) (config : Config.t)
  (env : ProcessEnv).

Lemma dev_steps_unbuilt (acts : list dev_action) :
  forall (st : State) (q : list microtask),
  unbuilt st ->
  unbuilt (fst (fold_left (dev_step path_resolve config) acts (st, q))).
Proof.
  induction acts as [|a acts IH]; intros st q Hinv; simpl; [exact Hinv|].
  destruct a as [|bundle options]; simpl.
  - destruct (readyPromise st) as [[ws|]|]; apply IH; exact Hinv.
  - destruct (update_cb st); apply IH; [|exact Hinv].
    unfold unbuilt. simpl. discriminate.
Qed.

Lemma step_unbuilt (st : State) (ev : event) :
  unbuilt st -> unbuilt (step path_resolve config env st ev).
Proof.
  intros Hinv. destruct ev as [now id req | now acts | now id err html]; simpl.
  - pose proof (on_request_frame env st now id req) as Hf. simpl in Hf.
    destruct (on_request env st now id req) as [st1 q]. simpl in Hf.
    destruct (drain_frame (list_sum (map weight q)) st1 now q) as (H1 & _ & _ & H2).
    unfold drain_all, unbuilt in *. intros H. rewrite H2.
    destruct Hf as (F1 & _ & F3). rewrite F3. apply Hinv. congruence.
  - pose proof (dev_steps_unbuilt acts st [] Hinv) as Hs.
    destruct (fold_left (dev_step path_resolve config) acts (st, [])) as [st1 q].
    simpl in Hs.
    destruct (drain_frame (list_sum (map weight q)) st1 now q) as (H1 & _ & _ & H2).
    unfold drain_all, unbuilt in *. intros H. rewrite H2. apply Hs. congruence.
  - destruct (on_settled_frame config env st now id err html) as (H1 & _ & _ & H2).
    unfold unbuilt in *. intros H. rewrite H2. apply Hinv. congruence.
Qed.

Lemma run_unbuilt (evs : list event) :
  forall st, unbuilt st -> unbuilt (run path_resolve config env st evs).
Proof.
  induction evs as [|ev evs IH]; intros st Hinv; [exact Hinv|].
  unfold run in *. simpl. apply IH. apply step_unbuilt. exact Hinv.
Qed.

End FirstRenderer.

(** C5: in development, as long as [readyPromise] is pending nothing has
    been rendered and every request that arrived is among its reactions;
    the turn of the build watcher that resolves it renders all of them,
    in order of arrival, with the renderer that turn's build creates (the
    first one ever, when the handle was empty before).  In production the
    turn that brings a request already sets the header and calls the
    renderer. *)
Theorem requests_wait_for_ready (path_resolve : string -> string -> string)
  (config : Config.t) :
  (forall env readFileSync require st0 evs ws,
     isProd env = false ->
     server_start path_resolve readFileSync require config env = Some st0 ->
     let waiting := run path_resolve config env st0 evs in
     readyPromise waiting = Some (Pending ws) ->
     trace waiting = [] /\ ws = arrivals evs /\
     forall now acts bundle options,
       resolves_ready acts = true ->
       builds acts = [(bundle, options)] ->
       let r := createRenderer path_resolve config bundle options in
       let served := step path_resolve config env waiting (DevServer now acts) in
       readyPromise served = Some Resolved /\
       renderer served = Some r /\
       (renderer waiting = None -> created served = 1%nat) /\
       trace served =
         map (fun w => (fst w, SetHeader "Content-Type" "text/html")) ws ++
         map (fun w => (fst w, RenderToString r (render_context (snd w)))) ws) /\
  (forall env st r now id req,
     isProd env = true ->
     renderer st = Some r ->
     trace (step path_resolve config env st (Incoming now id req)) =
       trace st ++ [ (id, SetHeader "Content-Type" "text/html");
                     (id, RenderToString r (render_context req)) ]).
Proof.
  split.
  - intros env readFileSync require st0 evs ws Hdev Hstart waiting Hp.
    unfold server_start in Hstart. rewrite Hdev in Hstart.
    injection Hstart as <-. subst waiting.
    destruct (run_pending path_resolve config env evs _ ws Hdev Hp)
      as (ws0 & H0 & -> & Ht).
    simpl in H0. injection H0 as <-. destruct (Ht eq_refl) as [Ht1 _].
    split; [exact Ht1|]. split; [reflexivity|].
    intros now acts bundle options Hr Hb. cbv zeta.
    pose proof (step_ready path_resolve config env _ _ now acts bundle options
                  Hp (run_update_cb path_resolve config env evs _) Hr Hb) as HS.
    cbv zeta in HS. destruct HS as (S1 & S2 & S3 & S4).
    split; [exact S1|]. split; [exact S2|]. split.
    + intros Hnone. rewrite S3. f_equal.
      apply (run_unbuilt path_resolve config env evs); [|exact Hnone].
      intros _. reflexivity.
    + rewrite S4, Ht1. reflexivity.
  - intros env st r now id req. apply step_production.
Qed.

Lemma requests_wait_for_ready_witness :
  exists st0,
    server_start join_path sample_readFileSync sample_require plain_config
      development = Some st0 /\
    trace (run join_path plain_config development st0 [Incoming 0 1 home]) = [] /\
    trace (step join_path plain_config development
             (run join_path plain_config development st0 [Incoming 0 1 home])
             (DevServer 7 [Ready; Update (VObj ∅) ∅])) =
      [ (1%nat, SetHeader "Content-Type" "text/html");
        (1%nat, RenderToString sample_renderer (render_context home)) ] /\
    trace (step join_path plain_config production
             (mkState (Some sample_renderer) None false 1 ∅ [])
             (Incoming 0 1 home)) =
      [ (1%nat, SetHeader "Content-Type" "text/html");
        (1%nat, RenderToString sample_renderer (render_context home)) ].
Proof.
  eexists. split; [reflexivity|].
  destruct (requests_wait_for_ready join_path plain_config) as [Hdev Hprod].
  destruct (Hdev development sample_readFileSync sample_require _
              [Incoming 0 1 home] [(1%nat, home)] eq_refl eq_refl eq_refl)
    as (H1 & _ & H3).
  split; [exact H1|]. split.
  - destruct (H3 7 [Ready; Update (VObj ∅) ∅] (VObj ∅) ∅ eq_refl eq_refl)
      as (_ & _ & _ & H4).
    exact H4.
  - exact (Hprod production (mkState (Some sample_renderer) None false 1 ∅ [])
             sample_renderer 0 1%nat home eq_refl eq_refl).
Defined.

(** C9: in production, once the template and the two JSON files under
    [dist] have been read, [server] has built its renderer from exactly
    these three, by the one call of [createRenderer] there will ever be;
    no update callback and no readiness promise exist, and whatever
    happens afterwards the handle still holds that renderer. *)
Theorem production_renderer_fixed (path_resolve : string -> string -> string)
  (readFileSync : string -> option string) (require : string -> option value)
  (config : Config.t) (env : ProcessEnv)
  (template : string) (bundle clientManifest : value) :
  isProd env = true ->
  readFileSync (path_resolve (Config.projectPath config) (Config.template config))
    = Some template ->
  require (path_resolve (Config.projectPath config)
             "./dist/vue-ssr-server-bundle.json") = Some bundle ->
  require (path_resolve (Config.projectPath config)
             "./dist/vue-ssr-client-manifest.json") = Some clientManifest ->
  exists st0,
    server_start path_resolve readFileSync require config env = Some st0 /\
    renderer st0 =
      Some (createRenderer path_resolve config bundle
              {[ "template" := VStr template;
                 "clientManifest" := clientManifest ]}) /\
    update_cb st0 = false /\ readyPromise st0 = None /\ created st0 = 1%nat /\
    forall evs,
      renderer (run path_resolve config env st0 evs) = renderer st0 /\
      created (run path_resolve config env st0 evs) = 1%nat /\
      update_cb (run path_resolve config env st0 evs) = false.
Proof.
  intros Hprod Ht Hb Hm. unfold server_start, templatePath, resolve.
  rewrite Hprod, Ht. simpl. rewrite Hb. simpl. rewrite Hm. simpl.
  eexists. split; [reflexivity|]. simpl. repeat split.
  - apply (run_no_callback path_resolve config env evs). reflexivity.
  - apply (run_no_callback path_resolve config env evs). reflexivity.
  - apply (run_update_cb path_resolve config env evs).
Qed.

Lemma production_renderer_fixed_witness :
  exists st0,
    server_start join_path sample_readFileSync sample_require plain_config
      production = Some st0 /\
    renderer (run join_path plain_config production st0
                [Incoming 0 1 home;
                 DevServer 3 [Ready; Update (VObj ∅) ∅];
                 Settled 5 1 VNull (VStr "<html>OK</html>")]) =
    renderer st0.
Proof.
  destruct (production_renderer_fixed join_path sample_readFileSync
              sample_require plain_config production
              "<html><!--vue-ssr-outlet--></html>"
              (VObj {[ "entry" := VStr "main.js" ]})
              (VObj {[ "publicPath" := VStr "/dist/" ]})
              eq_refl eq_refl eq_refl eq_refl)
    as (st0 & H0 & _ & _ & _ & _ & H).
  exists st0. split; [exact H0|]. apply H.
Defined.

(** ** Further properties of startup *)

(** X1: the port handed to [app.listen] is [config.port] when that is
    truthy, else a non-empty [PORT] of the environment (as the string it
    is), else the number 8080; a configured port 0 or an empty [PORT]
    is passed over, so the result is never falsy. *)
Theorem listen_port_precedence (config : Config.t) (env : ProcessEnv) :
  (truthy (Config.port config) = true ->
     listen_port config env = Config.port config) /\
  (truthy (Config.port config) = false ->
     forall p, PORT env = Some p -> p <> "" ->
               listen_port config env = VStr p) /\
  (truthy (Config.port config) = false ->
     PORT env = None \/ PORT env = Some "" ->
     listen_port config env = VNum 8080) /\
  truthy (listen_port config env) = true.
Proof.
  unfold listen_port, js_or. repeat split.
  - intros H. now rewrite H, H.
  - intros H p Hp Hne. rewrite H, Hp. simpl.
    destruct (String.eqb p "") eqn:E; [|reflexivity].
    apply String.eqb_eq in E. contradiction.
  - intros H [Hp | Hp]; rewrite H, Hp; reflexivity.
  - destruct (truthy (Config.port config)) eqn:H.
    + now rewrite H.
    + destruct (truthy (env_value (PORT env))) eqn:Hp; [now rewrite Hp|].
      reflexivity.
Qed.

Lemma listen_port_precedence_witness :
  listen_port (sample_config no_context None)
              (mkEnv None None (Some "3000")) = VStr "3000" /\
  listen_port (Config.mk "/srv/app" "index.template.html" VUndefined (VNum 0)
                 VNull VNull no_context None)
              development = VNum 8080.
Proof.
  split.
  - apply (proj1 (proj2 (listen_port_precedence (sample_config no_context None)
                           (mkEnv None None (Some "3000")))));
      [reflexivity | reflexivity | discriminate].
  - apply (proj1 (proj2 (proj2 (listen_port_precedence
             (Config.mk "/srv/app" "index.template.html" VUndefined (VNum 0)
                VNull VNull no_context None) development))));
      [reflexivity | left; reflexivity].
Defined.



(** ** Further properties of one render *)


(** X4: a render that reaches a renderer ends the response exactly once
    ([send] or [redirect]) when it succeeds or when the default handler
    deals with the failure, and a failure handled by default never leaves
    the status at 200; with a custom [handleError] a failing render ends
    nothing itself: the hook receives the error only. *)
Theorem render_terminal_calls (config : Config.t) (env : ProcessEnv)
  (r : Renderer) (req : Request) (s now : Z) (err html : value) :
  let tr := render config env (Some r) req s now err html in
  (truthy err = false \/ Config.handleError config = None ->
     length (List.filter terminal tr) = 1%nat) /\
  (truthy err = true -> Config.handleError config = None ->
     In (status (response_of tr)) [302; 404; 500]) /\
  (truthy err = true -> Config.handleError config <> None ->
     List.filter terminal tr = []).
Proof.
  simpl. unfold render, response_of, renderToString_callback, handleError.
  split; [|split].
  - intros H. destruct (truthy err) eqn:E.
    + destruct H as [H | H]; [discriminate|]. rewrite H.
      destruct (truthy (get err "url")); [reflexivity|].
      destruct (strict_eq_num (get err "code") 404); reflexivity.
    + destruct (isProd env); reflexivity.
  - intros E H. rewrite E, H.
    destruct (truthy (get err "url")); [simpl; tauto|].
    destruct (strict_eq_num (get err "code") 404); simpl; tauto.
  - intros E H. rewrite E.
    destruct (Config.handleError config); [reflexivity | contradiction].
Qed.

Lemma render_terminal_calls_witness :
  length (List.filter terminal
            (render plain_config development (Some sample_renderer) home 0 5
               (VObj {[ "url" := VStr "/login" ]}) VUndefined)) = 1%nat /\
  List.filter terminal
    (render hooked_config development (Some sample_renderer) home 0 5
       (VObj {[ "url" := VStr "/login" ]}) VUndefined) = [].
Proof.
  split.
  - apply (proj1 (render_terminal_calls plain_config development
                    sample_renderer home 0 5
                    (VObj {[ "url" := VStr "/login" ]}) VUndefined)).
    right. reflexivity.
  - apply (proj2 (proj2 (render_terminal_calls hooked_config development
                           sample_renderer home 0 5
                           (VObj {[ "url" := VStr "/login" ]}) VUndefined)));
      [reflexivity | discriminate].
Defined.

(** X5: [console.error] is written in one situation only: a failure that
    no custom hook takes, that carries no redirect URL and whose code is
    not the number 404.  Redirects, 404s, successes and failures given to
    the hook leave the error log empty. *)
Theorem render_error_log (config : Config.t) (env : ProcessEnv)
  (r : Renderer) (req : Request) (s now : Z) (err html : value) :
  let tr := render config env (Some r) req s now err html in
  (error_log tr <> [] <->
   truthy err = true /\ Config.handleError config = None /\
   truthy (get err "url") = false /\ get err "code" <> VNum 404) /\
  (error_log tr <> [] ->
   error_log tr = [VStr ("error during render : " ++ url req);
                   get err "stack"]).
Proof.
  simpl. unfold render, renderToString_callback, handleError.
  destruct (truthy err) eqn:E.
  - destruct (Config.handleError config) as [hook|] eqn:Hh.
    + simpl. split; [|tauto]. split; [tauto|]. intros (_ & H & _). discriminate.
    + destruct (truthy (get err "url")) eqn:Hu.
      * simpl. split; [|tauto]. split; [tauto|]. intros (_ & _ & H & _).
        discriminate.
      * destruct (strict_eq_num (get err "code") 404) eqn:Hc.
        -- simpl. split; [|tauto]. split; [tauto|]. intros (_ & _ & _ & H).
           apply strict_eq_num_spec in Hc. contradiction.
        -- simpl. split; [|reflexivity]. split; [|discriminate].
           intros _. repeat split. intros H.
           apply strict_eq_num_spec in H. congruence.
  - destruct (isProd env); simpl; (split; [|tauto]);
      (split; [tauto|]); intros (H & _); discriminate.
Qed.

Lemma render_error_log_witness :
  error_log (render plain_config production (Some sample_renderer) home 0 5
               (VObj {[ "code" := VStr "404" ]}) VUndefined) =
  [VStr "error during render : /y"; VUndefined].
Proof.
  pose proof (render_error_log plain_config production sample_renderer
                home 0 5 (VObj {[ "code" := VStr "404" ]}) VUndefined) as H.
  cbv zeta in H. destruct H as [H1 H2].
  assert (Hu : truthy (get (VObj {[ "code" := VStr "404" ]}) "url") = false)
    by (vm_compute; reflexivity).
  assert (Hc : get (VObj {[ "code" := VStr "404" ]}) "code" <> VNum 404)
    by (vm_compute; discriminate).
  etransitivity.
  - exact (H2 (proj2 H1 (conj eq_refl (conj eq_refl (conj Hu Hc))))).
  - vm_compute. reflexivity.
Defined.

(** X6: the timing line goes to [console.log] only for a successful
    render outside production, once, and reports the time between the
    start of [render] and the renderer's callback; failures are not
    timed, and production never writes to [console.log]. *)
Theorem render_timing_log (config : Config.t) (env : ProcessEnv)
  (handle : option Renderer) (req : Request) (s now : Z) (err html : value) :
  let tr := render config env handle req s now err html in
  (isProd env = true \/ truthy err = true \/ handle = None ->
     console_log tr = []) /\
  (isProd env = false -> truthy err = false -> handle <> None ->
     console_log tr = ["whole request: " ++ pretty (now - s) ++ "ms"]%string).
Proof.
  simpl. unfold render, renderToString_callback, handleError.
  destruct handle as [r|]; simpl.
  - destruct (truthy err) eqn:E.
    + split; [|discriminate]. intros _.
      destruct (Config.handleError config); [reflexivity|].
      destruct (truthy (get err "url")); [reflexivity|].
      destruct (strict_eq_num (get err "code") 404); reflexivity.
    + destruct (isProd env); simpl.
      * split; [reflexivity | discriminate].
      * split; [|reflexivity]. intros [H | [H | H]]; discriminate.
  - split; [reflexivity|]. intros _ _ H. contradiction.
Qed.

Lemma render_timing_log_witness :
  console_log (render plain_config development (Some sample_renderer) home
                 100 142 VNull (VStr "<html>OK</html>")) =
  ["whole request: 42ms"].
Proof.
  etransitivity.
  - exact (proj2 (render_timing_log plain_config development
                    (Some sample_renderer) home 100 142 VNull
                    (VStr "<html>OK</html>"))
             eq_refl eq_refl ltac:(discriminate)).
  - vm_compute. reflexivity.
Defined.

(** ** Further properties of the renderer factory *)

(** X7: the factory also overrides a [basedir] of the caller with the
    project's [dist] directory, and the options it passes on have the
    caller's keys plus [cache], [basedir] and [runInNewContext], no
    others. *)
Theorem createRenderer_basedir (path_resolve : string -> string -> string)
  (config : Config.t) (bundle : value) (options : gmap string value) :
  let r := createRenderer path_resolve config bundle options in
  r_options r !! "basedir" =
    Some (VStr (path_resolve (Config.projectPath config) "./dist")) /\
  dom (r_options r) =
    dom options ∪ ({[ "cache"; "basedir"; "runInNewContext" ]} : gset string).
Proof.
  simpl. unfold createRenderer, createBundleRenderer. simpl. split.
  - apply Object_assign_lookup_source. now simplify_map_eq.
  - unfold Object_assign. simpl.
    rewrite dom_union_L, !dom_insert_L, dom_singleton_L.
    apply set_eq. intros k. rewrite !elem_of_union, !elem_of_singleton. tauto.
Qed.

(** ** Further properties of the event loop *)

Section Turns.

Context (path_resolve : string -> string -> string) (config : Config.t)
  (env : ProcessEnv).

(** A request that does not have to wait: its turn sets the header, calls
    the renderer in place and files the callback's closure. *)
Lemma step_incoming_ready (st : State) (r : Renderer) (now : Z) (id : nat)
  (req : Request) :
  isProd env = true \/ readyPromise st = Some Resolved ->
  renderer st = Some r ->
  let st' := step path_resolve config env st (Incoming now id req) in
  trace st' = trace st ++ [ (id, SetHeader "Content-Type" "text/html");
                            (id, RenderToString r (render_context req)) ] /\
  inflight st' = <[id := (req, now)]> (inflight st) /\
  readyPromise st' = readyPromise st /\ renderer st' = Some r.
Proof.
  intros Hmode Hr. simpl. unfold on_request.
  destruct (isProd env) eqn:E.
  - simpl. unfold drain_all. simpl. unfold context_then. simpl.
    rewrite Hr. simpl. rewrite <- app_assoc. tauto.
  - destruct Hmode as [Hmode | Hmode]; [discriminate|]. rewrite Hmode.
    unfold drain_all. simpl. unfold context_then. simpl.
    rewrite Hr. simpl. rewrite <- app_assoc. tauto.
Qed.

Lemma step_resolved (st : State) (ev : event) :
  readyPromise st = Some Resolved ->
  readyPromise (step path_resolve config env st ev) = Some Resolved.
Proof.
  intros Hp. destruct ev as [now id req | now acts | now id err html]; simpl.
  - unfold on_request. rewrite Hp.
    destruct (isProd env); unfold drain_all; simpl;
      unfold context_then; simpl; destruct (renderer st); simpl; exact Hp.
  - pose proof (dev_steps_promise path_resolve config acts st []) as Hs.
    simpl in Hs. rewrite Hp in Hs.
    destruct (fold_left (dev_step path_resolve config) acts (st, []))
      as [st1 q]. simpl in Hs. destruct Hs as (_ & _ & _ & Hs & ->).
    rewrite drain_all_nil. exact Hs.
  - destruct (on_settled_frame config env st now id err html) as (_ & H & _).
    congruence.
Qed.

(** A turn of the build watcher after readiness: nothing is queued, so
    neither the trace nor the renders in flight change. *)
Lemma step_dev_resolved (st : State) (now : Z) (acts : list dev_action) :
  readyPromise st = Some Resolved ->
  let st' := step path_resolve config env st (DevServer now acts) in
  trace st' = trace st /\ inflight st' = inflight st /\
  readyPromise st' = Some Resolved.
Proof.
  intros Hp. simpl.
  pose proof (dev_steps_promise path_resolve config acts st []) as Hs.
  simpl in Hs. rewrite Hp in Hs.
  destruct (fold_left (dev_step path_resolve config) acts (st, []))
    as [st1 q]. simpl in Hs. destruct Hs as (H1 & H2 & _ & H3 & ->).
  rewrite drain_all_nil. tauto.
Qed.

Lemma fold_rebuilt_last (l : list (value * gmap string value))
  (h : option Renderer) (bundle : value) (options : gmap string value) :
  last l = Some (bundle, options) ->
  fold_left
    (fun (h : option Renderer) (bo : value * gmap string value) =>
       Some (createRenderer path_resolve config (fst bo) (snd bo))) l h =
  Some (createRenderer path_resolve config bundle options).
Proof.
  intros Hl. apply last_Some in Hl. destruct Hl as [l' ->].
  rewrite fold_left_app. reflexivity.
Qed.

End Turns.

(** X8: [readyPromise] is one-shot.  Once resolved it stays resolved
    through any later requests, builds and renderer callbacks, and from
    then on no request waits: each is handed to the renderer currently in
    the handle during its own turn. *)
Theorem readiness_is_one_shot (path_resolve : string -> string -> string)
  (config : Config.t) (env : ProcessEnv) (st : State) (evs : list event) :
  readyPromise st = Some Resolved ->
  let st' := run path_resolve config env st evs in
  readyPromise st' = Some Resolved /\
  forall r now id req,
    renderer st' = Some r ->
    trace (step path_resolve config env st' (Incoming now id req)) =
      trace st' ++ [ (id, SetHeader "Content-Type" "text/html");
                     (id, RenderToString r (render_context req)) ].
Proof.
  intros Hp. cbv zeta.
  assert (Hres : readyPromise (run path_resolve config env st evs) = Some Resolved).
  { revert st Hp. induction evs as [|ev evs IH]; intros st Hp; [exact Hp|].
    unfold run in *. simpl. apply IH. apply step_resolved. exact Hp. }
  split; [exact Hres|]. intros r now id req Hr.
  apply (step_incoming_ready path_resolve config env _ r now id req);
    [right; exact Hres | exact Hr].
Qed.

Lemma readiness_is_one_shot_witness :
  readyPromise
    (run join_path plain_config development
       (mkState (Some sample_renderer) (Some Resolved) true 1 ∅ [])
       [DevServer 1 [Ready; Ready]; Incoming 2 7 home]) = Some Resolved.
Proof.
  apply (readiness_is_one_shot join_path plain_config development
           (mkState (Some sample_renderer) (Some Resolved) true 1 ∅ [])
           [DevServer 1 [Ready; Ready]; Incoming 2 7 home]).
  reflexivity.
Defined.

(** X9: hot reload.  With the update callback in place, a turn of the
    build watcher leaves the renderer of its last build in the handle
    (one [createRenderer] call per build); after readiness the next
    request is rendered with that renderer, not with an earlier one. *)
Theorem latest_build_serves (path_resolve : string -> string -> string)
  (config : Config.t) (env : ProcessEnv) (st : State) (now : Z)
  (acts : list dev_action) (bundle : value) (options : gmap string value) :
  update_cb st = true ->
  last (builds acts) = Some (bundle, options) ->
  let r := createRenderer path_resolve config bundle options in
  let st' := step path_resolve config env st (DevServer now acts) in
  renderer st' = Some r /\
  created st' = (created st + length (builds acts))%nat /\
  (readyPromise st = Some Resolved ->
   forall now' id req,
     trace (step path_resolve config env st' (Incoming now' id req)) =
       trace st ++ [ (id, SetHeader "Content-Type" "text/html");
                     (id, RenderToString r (render_context req)) ]).
Proof.
  intros Hu Hl. cbv zeta.
  assert (Hr : renderer (step path_resolve config env st (DevServer now acts)) =
               Some (createRenderer path_resolve config bundle options) /\
               created (step path_resolve config env st (DevServer now acts)) =
               (created st + length (builds acts))%nat).
  { simpl.
    pose proof (dev_steps_renderer path_resolve config acts st [] Hu) as Hn.
    simpl in Hn.
    destruct (fold_left (dev_step path_resolve config) acts (st, []))
      as [st1 q]. simpl in Hn. destruct Hn as [Hn1 Hn2].
    destruct (drain_frame (list_sum (map weight q)) st1 now q)
      as (F1 & _ & _ & F4).
    unfold drain_all. rewrite F1, F4, Hn1, Hn2. split; [|reflexivity].
    apply fold_rebuilt_last. exact Hl. }
  destruct Hr as [Hr Hc]. split; [exact Hr|]. split; [exact Hc|].
  intros Hp now' id req.
  pose proof (step_dev_resolved path_resolve config env st now acts Hp) as Hd.
  cbv zeta in Hd. destruct Hd as (Ht & _ & Hp').
  pose proof (step_incoming_ready path_resolve config env _ _ now' id req
                (or_intror Hp') Hr) as Hi.
  cbv zeta in Hi. destruct Hi as (Hi & _). rewrite Hi, Ht. reflexivity.
Qed.

Lemma latest_build_serves_witness :
  renderer
    (step join_path plain_config development
       (mkState None (Some Resolved) true 0 ∅ [])
       (DevServer 1 [Update VNull ∅; Update (VObj ∅) ∅])) =
  Some sample_renderer.
Proof.
  apply (latest_build_serves join_path plain_config development
           (mkState None (Some Resolved) true 0 ∅ []) 1
           [Update VNull ∅; Update (VObj ∅) ∅] (VObj ∅) ∅);
    reflexivity.
Defined.

(** X10: a rebuild does not reach a render in flight.  When the build
    watcher runs between the call of the renderer and its callback, the
    answer is still the one computed from the request and start time the
    callback closed over. *)
Theorem rebuild_leaves_inflight (path_resolve : string -> string -> string)
  (config : Config.t) (env : ProcessEnv) (st : State) (now now' : Z)
  (acts : list dev_action) (id : nat) (req : Request) (s : Z)
  (err html : value) :
  readyPromise st = Some Resolved ->
  inflight st !! id = Some (req, s) ->
  trace (run path_resolve config env st
           [DevServer now acts; Settled now' id err html]) =
    trace st ++
    map (pair id) (renderToString_callback config env req s now' err html).
Proof.
  intros Hp Hi. unfold run. cbn [fold_left].
  pose proof (step_dev_resolved path_resolve config env st now acts Hp) as Hd.
  cbv zeta in Hd.
  remember (step path_resolve config env st (DevServer now acts)) as st1.
  destruct Hd as (Ht & Hf & _).
  cbn [step]. unfold on_settled. rewrite Hf, Hi. simpl. rewrite Ht.
  reflexivity.
Qed.

Lemma rebuild_leaves_inflight_witness :
  trace (run join_path plain_config development
           (mkState (Some sample_renderer) (Some Resolved) true 1
              {[ 7%nat := (home, 0) ]} [])
           [DevServer 1 [Update VNull ∅];
            Settled 5 7 VNull (VStr "<html>OK</html>")]) =
  [(7%nat, Send (VStr "<html>OK</html>"));
   (7%nat, ConsoleLog "whole request: 5ms")].
Proof.
  etransitivity.
  - apply (rebuild_leaves_inflight join_path plain_config development
             (mkState (Some sample_renderer) (Some Resolved) true 1
                {[ 7%nat := (home, 0) ]} [])
             1 5 [Update VNull ∅] 7%nat home 0 VNull (VStr "<html>OK</html>"));
      reflexivity.
  - vm_compute. reflexivity.
Defined.

Section Unbuilt.

Context (path_resolve : string -> string -> string) (config : Config.t)
  (env : ProcessEnv).

(** Emptying the queue with no renderer in place: every continuation
    throws, and nothing is left in flight. *)
Lemma drain_unbuilt (now : Z) (fuel : nat) :
  forall (st : State) (q : list microtask),
  renderer st = None ->
  (list_sum (map weight q) <= fuel)%nat ->
  trace (drain fuel st now q) =
    trace st ++ first_pass_unbuilt q ++ second_pass_unbuilt q /\
  inflight (drain fuel st now q) = inflight st.
Proof.
  induction fuel as [|fuel IH]; intros st q Hr Hfuel.
  - destruct q as [|t q]; simpl in *.
    + now rewrite app_nil_r.
    + pose proof (weight_pos t). lia.
  - destruct q as [|t q]; simpl in *; [now rewrite app_nil_r|].
    destruct t as [id req | id req s context]; simpl in *.
    + destruct (IH (emit st id [SetHeader "Content-Type" "text/html"])
                  (q ++ [ContextThen id req now (context_promise req)]))
        as [H1 H2]; [exact Hr | rewrite map_app, list_sum_app; simpl; lia |].
      rewrite H1, H2. simpl. split; [|reflexivity].
      unfold first_pass_unbuilt, second_pass_unbuilt.
      rewrite map_app, omap_app. simpl.
      rewrite app_nil_r, <- !app_assoc. reflexivity.
    + rewrite app_nil_r. unfold context_then. rewrite Hr.
      destruct (IH (emit st id [TypeError]) q) as [H1 H2]; [exact Hr | lia |].
      rewrite H1, H2. simpl. rewrite <- app_assoc. tauto.
Qed.

Lemma dev_steps_no_build (acts : list dev_action) :
  forall (st : State) (q : list microtask),
  builds acts = [] ->
  renderer (fst (fold_left (dev_step path_resolve config) acts (st, q))) =
  renderer st.
Proof.
  induction acts as [|a acts IH]; intros st q Hb; simpl; [reflexivity|].
  destruct a as [|bundle options]; simpl in *; [|discriminate].
  destruct (readyPromise st) as [[ws|]|]; [|exact (IH st q Hb) ..].
  exact (IH (mkState (renderer st) (Some Resolved) (update_cb st)
               (created st) (inflight st) (trace st)) _ Hb).
Qed.

End Unbuilt.

(** X11: if the build watcher resolves [readyPromise] in a turn that
    installs no renderer while the handle is still empty, every waiting
    request gets its Content-Type header and then fails on
    [renderer.renderToString] of [undefined]; nothing is sent and nothing
    is left in flight, so no later callback can answer it. *)
Theorem ready_without_renderer (path_resolve : string -> string -> string)
  (config : Config.t) (env : ProcessEnv) (st : State)
  (ws : list (nat * Request)) (now : Z) (acts : list dev_action) :
  readyPromise st = Some (Pending ws) ->
  renderer st = None ->
  resolves_ready acts = true ->
  builds acts = [] ->
  let st' := step path_resolve config env st (DevServer now acts) in
  trace st' =
    trace st ++
    map (fun w => (fst w, SetHeader "Content-Type" "text/html")) ws ++
    map (fun w => (fst w, TypeError)) ws /\
  inflight st' = inflight st /\
  renderer st' = None /\ readyPromise st' = Some Resolved.
Proof.
  intros Hp Hr Hres Hb. simpl.
  pose proof (dev_steps_promise path_resolve config acts st []) as Hs.
  pose proof (dev_steps_no_build path_resolve config acts st [] Hb) as Hn.
  simpl in Hs.
  destruct (fold_left (dev_step path_resolve config) acts (st, []))
    as [st1 q]. simpl in Hs, Hn.
  rewrite Hp, Hres in Hs. destruct Hs as (Ht & Hi & _ & Hs1 & ->).
  simpl. unfold drain_all.
  destruct (drain_frame
              (list_sum (map weight (map (fun w => ReadyThen (fst w) (snd w)) ws)))
              st1 now (map (fun w => ReadyThen (fst w) (snd w)) ws))
    as (F1 & F2 & _).
  destruct (drain_unbuilt now
              (list_sum (map weight (map (fun w => ReadyThen (fst w) (snd w)) ws)))
              st1 (map (fun w => ReadyThen (fst w) (snd w)) ws))
    as [D1 D2]; [congruence | lia |].
  rewrite D1, D2, F1, F2, Ht, Hi, Hn, Hr, Hs1.
  repeat split. f_equal.
  unfold first_pass_unbuilt, second_pass_unbuilt. rewrite map_map. f_equal.
  clear. induction ws as [|w ws IH]; simpl; [reflexivity|].
  f_equal. exact IH.
Qed.

Lemma ready_without_renderer_witness :
  trace (step join_path plain_config development
           (mkState None (Some (Pending [(1%nat, home)])) true 0 ∅ [])
           (DevServer 3 [Ready])) =
  [ (1%nat, SetHeader "Content-Type" "text/html"); (1%nat, TypeError) ].
Proof.
  apply (ready_without_renderer join_path plain_config development
           (mkState None (Some (Pending [(1%nat, home)])) true 0 ∅ [])
           [(1%nat, home)] 3 [Ready]); reflexivity.
Defined.

Section Waiting.

Context (path_resolve : string -> string -> string) (config : Config.t)
  (env : ProcessEnv).

(** What emptying the queue files in [inflight]. *)
Lemma drain_inflight (r : Renderer) (now : Z) (fuel : nat) :
  forall (st : State) (q : list microtask),
  renderer st = Some r ->
  (list_sum (map weight q) <= fuel)%nat ->
  inflight (drain fuel st now q) =
  fold_left (fun m x => <[fst x := snd x]> m) (entries now q) (inflight st).
Proof.
  induction fuel as [|fuel IH]; intros st q Hr Hfuel.
  - destruct q as [|t q]; simpl in *; [reflexivity|].
    pose proof (weight_pos t). lia.
  - destruct q as [|t q]; simpl in *; [reflexivity|].
    destruct t as [id req | id req s context]; simpl in *.
    + rewrite IH; simpl; [| exact Hr | rewrite map_app, list_sum_app; simpl; lia].
      unfold entries. rewrite !omap_app. simpl.
      rewrite app_nil_r, <- app_assoc. reflexivity.
    + rewrite app_nil_r. unfold context_then. rewrite Hr. simpl.
      rewrite IH; simpl; [reflexivity | exact Hr | lia].
Qed.

Lemma fold_insert_other (l : list (nat * (Request * Z))) :
  forall (m : gmap nat (Request * Z)) (k : nat),
  ~ In k (map fst l) ->
  fold_left (fun m x => <[fst x := snd x]> m) l m !! k = m !! k.
Proof.
  induction l as [|[k0 v0] l IH]; intros m k Hk; simpl in *; [reflexivity|].
  rewrite IH by tauto. apply lookup_insert_ne. intros ->. tauto.
Qed.

Lemma fold_insert_lookup (l : list (nat * (Request * Z))) :
  forall (m : gmap nat (Request * Z)) (k : nat) (v : Request * Z),
  List.NoDup (map fst l) -> In (k, v) l ->
  fold_left (fun m x => <[fst x := snd x]> m) l m !! k = Some v.
Proof.
  induction l as [|[k0 v0] l IH]; intros m k v Hnd Hin; simpl in *;
    [contradiction|].
  inversion Hnd as [|? ? Hk0 Hnd']; subst.
  destruct Hin as [Heq | Hin].
  - injection Heq as -> ->. rewrite fold_insert_other by exact Hk0.
    apply lookup_insert_eq.
  - apply IH; assumption.
Qed.

Lemma entries_ready (now : Z) (ws : list (nat * Request)) :
  entries now (map (fun w => ReadyThen (fst w) (snd w)) ws) =
  map (fun w => (fst w, (snd w, now))) ws.
Proof.
  unfold entries.
  replace (omap _ (map (fun w => ReadyThen (fst w) (snd w)) ws))
    with (@nil (nat * (Request * Z))).
  - simpl. induction ws as [|w ws IH]; simpl; [reflexivity|].
    f_equal. exact IH.
  - induction ws as [|w ws IH]; simpl; [reflexivity | exact IH].
Qed.

End Waiting.

(** X12: a request that waited for readiness starts its [render] in the
    turn that resolves [readyPromise]: the start time its callback closes
    over is the time of that turn, not the time the request arrived, so
    the reported duration leaves out the wait for the first build.  When
    the renderer calls back, the request is answered from that closure. *)
Theorem waiting_request_lifecycle (path_resolve : string -> string -> string)
  (config : Config.t) (env : ProcessEnv) (st : State)
  (ws : list (nat * Request)) (now now' : Z) (acts : list dev_action)
  (bundle : value) (options : gmap string value)
  (id : nat) (req : Request) (err html : value) :
  readyPromise st = Some (Pending ws) ->
  update_cb st = true ->
  resolves_ready acts = true ->
  builds acts = [(bundle, options)] ->
  List.NoDup (map fst ws) ->
  In (id, req) ws ->
  let st1 := step path_resolve config env st (DevServer now acts) in
  inflight st1 !! id = Some (req, now) /\
  trace (step path_resolve config env st1 (Settled now' id err html)) =
    trace st1 ++
    map (pair id) (renderToString_callback config env req now now' err html).
Proof.
  intros Hp Hu Hres Hb Hnd Hin. cbv zeta.
  assert (Hi : inflight (step path_resolve config env st (DevServer now acts))
               !! id = Some (req, now)).
  { simpl.
    pose proof (dev_steps_promise path_resolve config acts st []) as Hs.
    pose proof (dev_steps_renderer path_resolve config acts st [] Hu) as Hn.
    simpl in Hs, Hn.
    destruct (fold_left (dev_step path_resolve config) acts (st, []))
      as [st1 q]. simpl in Hs, Hn.
    rewrite Hp, Hres in Hs. rewrite Hb in Hn. simpl in Hn.
    destruct Hs as (_ & _ & _ & _ & ->). destruct Hn as [Hn _].
    simpl. unfold drain_all.
    rewrite (drain_inflight (createRenderer path_resolve config bundle options));
      [| exact Hn | lia].
    rewrite entries_ready. apply fold_insert_lookup.
    - rewrite map_map. simpl. exact Hnd.
    - apply (in_map (fun w => (fst w, (snd w, now))) ws (id, req)). exact Hin. }
  split; [exact Hi|].
  remember (step path_resolve config env st (DevServer now acts)) as st1.
  cbn [step]. unfold on_settled. rewrite Hi. reflexivity.
Qed.

Lemma waiting_request_lifecycle_witness :
  trace (run join_path plain_config development
           (mkState None (Some (Pending [(1%nat, home)])) true 0 ∅ [])
           [DevServer 100 [Ready; Update (VObj ∅) ∅];
            Settled 142 1 VNull (VStr "<html>OK</html>")]) =
  [ (1%nat, SetHeader "Content-Type" "text/html");
    (1%nat, RenderToString sample_renderer (render_context home));
    (1%nat, Send (VStr "<html>OK</html>"));
    (1%nat, ConsoleLog "whole request: 42ms") ].
Proof.
  etransitivity.
  - unfold run. cbn [fold_left].
    apply (waiting_request_lifecycle join_path plain_config development
             (mkState None (Some (Pending [(1%nat, home)])) true 0 ∅ [])
             [(1%nat, home)] 100 142 [Ready; Update (VObj ∅) ∅] (VObj ∅) ∅
             1%nat home VNull (VStr "<html>OK</html>"));
      try reflexivity.
    + repeat constructor. simpl. tauto.
    + left. reflexivity.
  - vm_compute. reflexivity.
Defined.

(** ** Order of effects *)

Lemma has_app (tr new : list (nat * effect)) (id : nat) (P : effect -> bool) :
  has tr id P -> has (tr ++ new) id P.
Proof.
  intros (m & e & Hm & HP). exists m, e. split; [|exact HP].
  now apply lookup_app_l_Some.
Qed.

Lemma has_snoc (tr : list (nat * effect)) (id : nat) (e : effect)
  (P : effect -> bool) :
  P e = true -> has (tr ++ [(id, e)]) id P.
Proof.
  intros HP. exists (length tr), e. split; [|exact HP].
  now apply list_lookup_middle.
Qed.

Lemma precedes_app_neutral (tr new : list (nat * effect))
  (P Q : effect -> bool) :
  Forall (fun x => Q (snd x) = false) new ->
  precedes tr P Q -> precedes (tr ++ new) P Q.
Proof.
  intros Hnew Hpre n id e Hn HQ.
  apply lookup_app_Some in Hn. destruct Hn as [Hn | [_ Hn]].
  - destruct (Hpre n id e Hn HQ) as (m & e' & Hlt & Hm & HP).
    exists m, e'. split; [exact Hlt|]. split; [|exact HP].
    now apply lookup_app_l_Some.
  - pose proof (Forall_lookup_1 _ _ _ _ Hnew Hn) as Hf. simpl in Hf. congruence.
Qed.

Lemma precedes_app_known (tr : list (nat * effect)) (id : nat)
  (es : list effect) (P Q : effect -> bool) :
  has tr id P ->
  precedes tr P Q -> precedes (tr ++ map (pair id) es) P Q.
Proof.
  intros (m0 & e0 & Hm0 & HP0) Hpre n id' e Hn HQ.
  apply lookup_app_Some in Hn. destruct Hn as [Hn | [Hge Hn]].
  - destruct (Hpre n id' e Hn HQ) as (m & e' & Hlt & Hm & HP).
    exists m, e'. split; [exact Hlt|]. split; [|exact HP].
    now apply lookup_app_l_Some.
  - rewrite list_lookup_fmap in Hn.
    destruct (es !! (n - length tr)%nat) as [e1|]; simpl in Hn; [|discriminate].
    injection Hn as <- <-.
    exists m0, e0. pose proof (lookup_lt_Some _ _ _ Hm0) as Hlt.
    split; [lia|]. split; [|exact HP0]. now apply lookup_app_l_Some.
Qed.

Lemma causal_emit_neutral (st : State) (id : nat) (e : effect) :
  answers e = false -> is_render e = false ->
  causal st -> causal (emit st id [e]).
Proof.
  intros Ha Hr (C1 & C2 & C3). unfold causal, emit. simpl.
  split; [|split].
  - apply precedes_app_neutral; [|exact C1]. repeat constructor. exact Ha.
  - apply precedes_app_neutral; [|exact C2]. repeat constructor. exact Hr.
  - intros id' x Hx. apply has_app. exact (C3 id' x Hx).
Qed.

Lemma queued_weaken (st st' : State) (q : list microtask) :
  (forall id, has (trace st) id is_header -> has (trace st') id is_header) ->
  queued st q -> queued st' q.
Proof. intros Hmono Hq id req s c Hin. apply Hmono. exact (Hq id req s c Hin). Qed.

Lemma run_microtask_causal (st : State) (now : Z) (t : microtask)
  (q : list microtask) :
  causal st -> queued st (t :: q) ->
  causal (fst (run_microtask st now t)) /\
  queued (fst (run_microtask st now t)) (q ++ snd (run_microtask st now t)).
Proof.
  intros Hc Hq. destruct t as [id req | id req s context]; simpl.
  - split; [now apply causal_emit_neutral|].
    intros id' req' s' c' Hin. apply in_app_or in Hin. simpl.
    destruct Hin as [Hin | [Heq | []]].
    + apply has_app. apply (Hq id' req' s' c'). right. exact Hin.
    + injection Heq as <- _ _ _. now apply has_snoc.
  - rewrite app_nil_r. unfold context_then.
    destruct (renderer st) as [r|].
    + assert (Hh : has (trace st) id is_header).
      { apply (Hq id req s context). left. reflexivity. }
      destruct Hc as (C1 & C2 & C3). split.
      * unfold causal. simpl. split; [|split].
        -- apply precedes_app_neutral; [|exact C1]. repeat constructor.
        -- apply (precedes_app_known _ id [RenderToString r _]); assumption.
        -- intros id' x Hx. destruct (decide (id' = id)) as [->|Hne].
           ++ now apply has_snoc.
           ++ rewrite lookup_insert_ne in Hx by congruence.
              apply has_app. exact (C3 id' x Hx).
      * intros id' req' s' c' Hin. simpl. apply has_app.
        apply (Hq id' req' s' c'). right. exact Hin.
    + split; [now apply causal_emit_neutral|].
      intros id' req' s' c' Hin. simpl. apply has_app.
      apply (Hq id' req' s' c'). right. exact Hin.
Qed.

Lemma drain_causal (now : Z) (fuel : nat) :
  forall (st : State) (q : list microtask),
  causal st -> queued st q -> causal (drain fuel st now q).
Proof.
  induction fuel as [|fuel IH]; intros st q Hc Hq; simpl; [exact Hc|].
  destruct q as [|t q]; [exact Hc|].
  destruct (run_microtask_causal st now t q Hc Hq) as [Hc' Hq'].
  destruct (run_microtask st now t) as [st1 more]. simpl in *.
  apply IH; assumption.
Qed.

Lemma queued_ready (st : State) (ws : list (nat * Request)) :
  queued st (map (fun w => ReadyThen (fst w) (snd w)) ws).
Proof.
  intros id req s c Hin. apply in_map_iff in Hin.
  destruct Hin as (w & Hw & _). discriminate.
Qed.

Lemma callback_not_render (config : Config.t) (env : ProcessEnv)
  (req : Request) (s now : Z) (err html : value) :
  Forall (fun x : nat * effect => is_render (snd x) = false)
    (map (pair 0%nat) (renderToString_callback config env req s now err html)).
Proof.
  unfold renderToString_callback, handleError.
  destruct (truthy err).
  - destruct (Config.handleError config); [repeat constructor|].
    destruct (truthy (get err "url")); [repeat constructor|].
    destruct (strict_eq_num (get err "code") 404); repeat constructor.
  - destruct (isProd env); repeat constructor.
Qed.

Section Order.

Context (path_resolve : string -> string -> string) (config : Config.t)
  (env : ProcessEnv).

Lemma step_causal (st : State) (ev : event) :
  causal st -> causal (step path_resolve config env st ev).
Proof.
  intros Hc. destruct ev as [now id req | now acts | now id err html]; simpl.
  - unfold on_request. destruct (isProd env).
    + apply drain_causal.
      * now apply causal_emit_neutral.
      * intros id' req' s' c' [Heq | []]. injection Heq as <- _ _ _.
        simpl. now apply has_snoc.
    + destruct (readyPromise st) as [[ws|]|].
      * rewrite drain_all_nil. exact Hc.
      * apply drain_causal; [exact Hc|].
        intros id' req' s' c' [Heq | []]. discriminate.
      * rewrite drain_all_nil. now apply causal_emit_neutral.
  - pose proof (dev_steps_promise path_resolve config acts st []) as Hs.
    simpl in Hs.
    destruct (fold_left (dev_step path_resolve config) acts (st, []))
      as [st1 q]. simpl in Hs. destruct Hs as (Ht & Hi & _ & Hs).
    assert (Hc1 : causal st1).
    { unfold causal in *. rewrite Ht, Hi. exact Hc. }
    apply drain_causal; [exact Hc1|].
    destruct (readyPromise st) as [[ws|]|].
    + destruct (resolves_ready acts); destruct Hs as [_ ->].
      * apply queued_ready.
      * intros ? ? ? ? [].
    + destruct Hs as [_ ->]. intros ? ? ? ? [].
    + destruct Hs as [_ ->]. intros ? ? ? ? [].
  - unfold on_settled. destruct (inflight st !! id) as [[req s]|] eqn:E;
      [|exact Hc].
    destruct Hc as (C1 & C2 & C3). unfold causal. simpl. split; [|split].
    + apply precedes_app_known; [|exact C1]. exact (C3 id _ E).
    + apply precedes_app_neutral; [|exact C2].
      pose proof (callback_not_render config env req s now err html) as Hf.
      rewrite Forall_fmap in Hf |- *. exact Hf.
    + intros id' x Hx. apply has_app.
      destruct (decide (id' = id)) as [->|Hne].
      * rewrite lookup_delete_eq in Hx. discriminate.
      * rewrite lookup_delete_ne in Hx by congruence. exact (C3 id' x Hx).
Qed.

Lemma run_causal (evs : list event) :
  forall st, causal st -> causal (run path_resolve config env st evs).
Proof.
  induction evs as [|ev evs IH]; intros st Hc; [exact Hc|].
  unfold run in *. simpl. apply IH. apply step_causal. exact Hc.
Qed.

End Order.

(** X13: from startup on, through any interleaving of requests, turns of
    the build watcher and renderer callbacks, in production and in
    development: every answer to a request (redirect, status, body, log
    line, call of the custom hook) comes after a call of the renderer for
    that request, and every call of the renderer comes after the request's
    Content-Type header was set. *)
Theorem effects_in_order (path_resolve : string -> string -> string)
  (readFileSync : string -> option string) (require : string -> option value)
  (config : Config.t) (env : ProcessEnv) (st0 : State) (evs : list event) :
  server_start path_resolve readFileSync require config env = Some st0 ->
  let tr := trace (run path_resolve config env st0 evs) in
  precedes tr is_render answers /\ precedes tr is_header is_render.
Proof.
  intros Hstart. cbv zeta.
  assert (H0 : causal st0).
  { unfold server_start, templatePath, resolve in Hstart.
    assert (Hempty : trace st0 = [] /\ inflight st0 = ∅).
    { destruct (isProd env).
      - destruct (readFileSync _); simpl in Hstart; [|discriminate].
        destruct (require (path_resolve _ "./dist/vue-ssr-server-bundle.json"));
          simpl in Hstart; [|discriminate].
        destruct (require (path_resolve _ "./dist/vue-ssr-client-manifest.json"));
          simpl in Hstart; [|discriminate].
        injection Hstart as <-. split; reflexivity.
      - injection Hstart as <-. split; reflexivity. }
    destruct Hempty as [Ht Hi]. unfold causal. rewrite Ht, Hi.
    split; [|split].
    - intros n id e Hn. discriminate.
    - intros n id e Hn. discriminate.
    - intros id x Hx. rewrite lookup_empty in Hx. discriminate. }
  destruct (run_causal path_resolve config env evs st0 H0) as (C1 & C2 & _).
  split; assumption.
Qed.

Lemma effects_in_order_witness :
  exists st0,
    server_start join_path sample_readFileSync sample_require plain_config
      production = Some st0 /\
    precedes
      (trace (run join_path plain_config production st0
                [Incoming 0 1 home; Settled 5 1 VNull (VStr "<html>OK</html>")]))
      is_render answers.
Proof.
  eexists. split; [reflexivity|].
  apply (effects_in_order join_path sample_readFileSync sample_require
           plain_config production _
           [Incoming 0 1 home; Settled 5 1 VNull (VStr "<html>OK</html>")]).
  reflexivity.
Defined.

(** ** Whole requests *)

(** X14: in production every request, whenever it arrives and whatever
    happened before, is handed during its own turn to the one renderer
    that [server] built at startup. *)
Theorem production_serves_startup_renderer
  (path_resolve : string -> string -> string)
  (readFileSync : string -> option string) (require : string -> option value)
  (config : Config.t) (env : ProcessEnv) (st0 : State) (evs : list event)
  (now : Z) (id : nat) (req : Request) :
  isProd env = true ->
  server_start path_resolve readFileSync require config env = Some st0 ->
  exists r0,
    renderer st0 = Some r0 /\
    trace (step path_resolve config env (run path_resolve config env st0 evs)
             (Incoming now id req)) =
      trace (run path_resolve config env st0 evs) ++
      [ (id, SetHeader "Content-Type" "text/html");
        (id, RenderToString r0 (render_context req)) ].
Proof.
  intros Hprod Hstart.
  unfold server_start, templatePath, resolve in Hstart. rewrite Hprod in Hstart.
  destruct (readFileSync _) as [t|]; simpl in Hstart; [|discriminate].
  destruct (require (path_resolve _ "./dist/vue-ssr-server-bundle.json"))
    as [b|]; simpl in Hstart; [|discriminate].
  destruct (require (path_resolve _ "./dist/vue-ssr-client-manifest.json"))
    as [m|]; simpl in Hstart; [|discriminate].
  injection Hstart as <-. eexists. split; [reflexivity|].
  apply step_production; [exact Hprod|].
  apply (run_no_callback path_resolve config env evs). reflexivity.
Qed.

Lemma production_serves_startup_renderer_witness :
  exists st0 r0,
    server_start join_path sample_readFileSync sample_require plain_config
      production = Some st0 /\
    renderer st0 = Some r0 /\
    trace (step join_path plain_config production
             (run join_path plain_config production st0
                [DevServer 1 [Ready; Update VNull ∅]])
             (Incoming 2 9 home)) =
      trace (run join_path plain_config production st0
               [DevServer 1 [Ready; Update VNull ∅]]) ++
      [ (9%nat, SetHeader "Content-Type" "text/html");
        (9%nat, RenderToString r0 (render_context home)) ].
Proof.
  eexists.
  destruct (production_serves_startup_renderer join_path sample_readFileSync
              sample_require plain_config production _
              [DevServer 1 [Ready; Update VNull ∅]] 2 9%nat home
              eq_refl eq_refl) as (r0 & H1 & H2).
  exists r0. split; [reflexivity|]. split; [exact H1 | exact H2].
Defined.

(** X15: a request that does not have to wait (production, or
    development after readiness) is answered over two turns, its arrival
    and the renderer's callback, with exactly the effects of [render]
    started at the arrival and using the renderer that was in the handle
    then. *)
Theorem request_round_trip (path_resolve : string -> string -> string)
  (config : Config.t) (env : ProcessEnv) (st : State) (r : Renderer)
  (now now' : Z) (id : nat) (req : Request) (err html : value) :
  isProd env = true \/ readyPromise st = Some Resolved ->
  renderer st = Some r ->
  trace (run path_resolve config env st
           [Incoming now id req; Settled now' id err html]) =
    trace st ++ map (pair id) (render config env (Some r) req now now' err html).
Proof.
  intros Hmode Hr. unfold run. cbn [fold_left].
  pose proof (step_incoming_ready path_resolve config env st r now id req
                Hmode Hr) as Hi.
  cbv zeta in Hi. destruct Hi as (Ht & Hi & _).
  remember (step path_resolve config env st (Incoming now id req)) as st1.
  cbn [step]. unfold on_settled. rewrite Hi, lookup_insert_eq. simpl.
  rewrite Ht. unfold render. simpl. rewrite <- app_assoc. reflexivity.
Qed.

Lemma request_round_trip_witness :
  trace (run join_path plain_config production
           (mkState (Some sample_renderer) None false 1 ∅ [])
           [Incoming 0 1 home; Settled 5 1 (VObj {[ "code" := VNum 404 ]}) VUndefined]) =
  [ (1%nat, SetHeader "Content-Type" "text/html");
    (1%nat, RenderToString sample_renderer (render_context home));
    (1%nat, Status 404);
    (1%nat, Send (VStr "404 | Page Not Found")) ].
Proof.
  etransitivity.
  - apply (request_round_trip join_path plain_config production
             (mkState (Some sample_renderer) None false 1 ∅ []) sample_renderer
             0 5 1%nat home (VObj {[ "code" := VNum 404 ]}) VUndefined);
      [left; reflexivity | reflexivity].
  - vm_compute. reflexivity.
Defined.
